(** * Verification of the statistics-processing service (app.py)

    A shallow embedding of [app.py]: the statistics document, the stats
    file, the two upstream fetches and the periodic [populate_stats]
    routine, followed by the properties of the aggregation cycle. *)

From Stdlib Require Import ZArith QArith Lia List.
From stdpp Require Import base gmap strings.
Import ListNotations.

Local Open Scope Z_scope.

(** ** Numbers

    The measurements are JSON numbers as [json] decodes them: Python
    integers, or floats with the two infinities and the not-a-number
    value, for which the decoder accepts the tokens [Infinity],
    [-Infinity] and [NaN].  Only their order is used by the program
    ([max], [min]), so a finite number is represented by the rational it
    denotes. *)

Module Number.

Inductive number : Type :=
| NaN
| NegInf
| Fin (q : Q)
| PosInf.

(** Python's [b > a]; a comparison with not-a-number is false. *)
Definition gt (b a : number) : bool :=
  match b, a with
  | NaN, _ | _, NaN => false
  | NegInf, _ => false
  | _, PosInf => false
  | Fin _, NegInf => true
  | Fin x, Fin y => match (x ?= y)%Q with Gt => true | _ => false end
  | PosInf, _ => true
  end.

(** Python's [b < a]. *)
Definition lt (b a : number) : bool := gt a b.

(** The builtin [max(a, b)]: the first argument is kept unless the second
    one is strictly greater. *)
Definition py_max (a b : number) : number := if gt b a then b else a.

(** The builtin [min(a, b)]: the first argument is kept unless the second
    one is strictly smaller. *)
Definition py_min (a b : number) : number := if lt b a then b else a.

(** Python's [a <= b]; false when either side is not-a-number. *)
Definition leb (a b : number) : bool :=
  match a, b with
  | NaN, _ | _, NaN => false
  | _, _ => negb (gt a b)
  end.

(** [a <= b], as a proposition. *)
Definition le (a b : number) : Prop := leb a b = true.

End Number.
Export Number.

(** ** Events and batches *)

(** A field of a decoded event: JSON [null], a number, or a text.  A
    text in the place of a measurement makes [max] and [min] raise
    [TypeError]. *)
Inductive jval : Type :=
| JNull
| JNum (x : number)
| JText (s : string).

(** An event is an open-ended mapping of named fields. *)
Abbreviation event := (gmap string jval).

(** ** Time

    A [datetime] is a number of whole seconds since 1970-01-01 00:00:00 UTC
    and a microsecond part.  The text ["%Y-%m-%d %H:%M:%S"] of a datetime
    is represented by the whole seconds it spells out. *)

Abbreviation timestamp := Z (only parsing).

Record datetime : Type := mk_datetime {
  seconds : Z;
  microsecond : Z
}.

(** [datetime.strptime(text, "%Y-%m-%d %H:%M:%S")] *)
Definition strptime (text : timestamp) : datetime :=
  {| seconds := text; microsecond := 0 |}.

(** [d.strftime("%Y-%m-%d %H:%M:%S")]: the microseconds are dropped. *)
Definition strftime (d : datetime) : timestamp := seconds d.


(** ** The statistics document *)

Record stats : Type := mk_stats {
  num_flight_schedules : Z;
  num_passenger_checkins : Z;
  max_luggage_weight : number;
  min_luggage_weight : number;
  max_flight_duration : number;
  min_flight_duration : number;
  last_updated : timestamp
}.

(** ["2000-01-01 00:00:00"] *)
Definition epoch_2000 : timestamp := 946684800.

Definition DEFAULT_STATS : stats :=
  {| num_flight_schedules := 0;
     num_passenger_checkins := 0;
     max_luggage_weight := Fin 0;
     min_luggage_weight := PosInf;
     max_flight_duration := Fin 0;
     min_flight_duration := PosInf;
     last_updated := epoch_2000 |}.

(** Assignments to one key of the [stats] dictionary. *)
Definition set_num_flight_schedules (n : Z) (s : stats) : stats :=
  mk_stats n (num_passenger_checkins s) (max_luggage_weight s) (min_luggage_weight s)
           (max_flight_duration s) (min_flight_duration s) (last_updated s).

Definition set_num_passenger_checkins (n : Z) (s : stats) : stats :=
  mk_stats (num_flight_schedules s) n (max_luggage_weight s) (min_luggage_weight s)
           (max_flight_duration s) (min_flight_duration s) (last_updated s).

Definition set_max_luggage_weight (x : number) (s : stats) : stats :=
  mk_stats (num_flight_schedules s) (num_passenger_checkins s) x (min_luggage_weight s)
           (max_flight_duration s) (min_flight_duration s) (last_updated s).

Definition set_min_luggage_weight (x : number) (s : stats) : stats :=
  mk_stats (num_flight_schedules s) (num_passenger_checkins s) (max_luggage_weight s) x
           (max_flight_duration s) (min_flight_duration s) (last_updated s).

Definition set_max_flight_duration (x : number) (s : stats) : stats :=
  mk_stats (num_flight_schedules s) (num_passenger_checkins s) (max_luggage_weight s)
           (min_luggage_weight s) x (min_flight_duration s) (last_updated s).

Definition set_min_flight_duration (x : number) (s : stats) : stats :=
  mk_stats (num_flight_schedules s) (num_passenger_checkins s) (max_luggage_weight s)
           (min_luggage_weight s) (max_flight_duration s) x (last_updated s).

Definition set_last_updated (t : timestamp) (s : stats) : stats :=
  mk_stats (num_flight_schedules s) (num_passenger_checkins s) (max_luggage_weight s)
           (min_luggage_weight s) (max_flight_duration s) (min_flight_duration s) t.

(** ** The outside world *)

(** The stats file.  [Truncated] is the file as [open(STATS_FILE, "w")]
    leaves it: it exists and holds no document yet.  [Document s] holds
    the text that [json.dump] writes for [s], which [json.load] reads back
    as [s]. *)
Inductive file : Type :=
| NoFile
| Truncated
| Document (s : stats).

Inductive category : Type := FlightSchedules | PassengerCheckins.

(** [app_conf.yml]: the event-store URLs. *)
Record app_config : Type := mk_app_config {
  flight_schedules_url : string;
  passenger_checkins_url : string
}.

(** [f"{url}?start_timestamp={start}&end_timestamp={end}"] *)
Record query_url : Type := mk_query_url {
  base_url : string;
  start_timestamp : timestamp;
  end_timestamp : timestamp
}.

(** The body of an HTTP response: a JSON array of events, or bytes that
    [.json()] cannot decode. *)
Inductive body : Type :=
| NotJson
| Json (events : list event).

(** What [httpx.get] does: it raises on a transport-level failure and
    otherwise returns the response, whatever its status. *)
Inductive reply : Type :=
| TransportFailure
| Response (status_code : Z) (content : body).

Inductive exn : Type :=
| TransportError
| JSONDecodeError
| TypeError.

Inductive level : Type := DEBUG | INFO | ERROR.

Inductive message : Type :=
| ProcessingStarted
| Received (c : category) (n : nat)
| ErrorFetching (c : category) (status_code : Z)
| UpdatedStatistics (s : stats)
| ProcessingEnded
| GetRequestReceived
| FileNotFound
| StatisticsData (s : stats)
| GetRequestCompleted.

Record world : Type := mk_world {
  disk : file;
  log : list (level * message);
  requests : list query_url
}.

(** ** Computations that may raise *)

Inductive result (A : Type) : Type :=
| Ok (a : A)
| Raise (e : exn).
Arguments Ok {A} a.
Arguments Raise {A} e.

Definition M (A : Type) : Type := world -> result A * world.

Definition ret {A} (a : A) : M A := fun w => (Ok a, w).

Definition bind {A B} (m : M A) (k : A -> M B) : M B :=
  fun w => match m w with
           | (Ok a, w') => k a w'
           | (Raise e, w') => (Raise e, w')
           end.

Definition raise {A} (e : exn) : M A := fun w => (Raise e, w).

Definition lift {A} (r : result A) : M A := fun w => (r, w).

Declare Scope M_scope.
Delimit Scope M_scope with M.
Bind Scope M_scope with M.
Notation "x <- m ; k" := (bind m (fun x => k))
  (at level 20, m at level 100, k at level 200, only parsing) : M_scope.
Notation "m ;; k" := (bind m (fun _ => k))
  (at level 100, k at level 200, only parsing, right associativity) : M_scope.

Definition logger (l : level) (msg : message) : M unit :=
  fun w => (Ok tt, mk_world (disk w) (log w ++ [(l, msg)]) (requests w)).

Definition read_disk : M file := fun w => (Ok (disk w), w).

Definition write_disk (f : file) : M unit :=
  fun w => (Ok tt, mk_world f (log w) (requests w)).

Local Open Scope M_scope.
Local Open Scope string_scope.
Local Open Scope list_scope.

(** ** Helper functions for the stats file *)

Definition read_existing_stats : M stats :=
  f <- read_disk;
  match f with
  | NoFile => ret DEFAULT_STATS
  | Truncated => raise JSONDecodeError
  | Document s => ret s
  end.

(** [open(STATS_FILE, "w")]: the file is created or emptied. *)
Definition open_w : M unit := write_disk Truncated.

(** [json.dump(stats, file, indent=4)] and the close of the file. *)
Definition json_dump (s : stats) : M unit := write_disk (Document s).

Definition write_stats (s : stats) : M unit :=
  open_w ;; json_dump s.

(** ** GET /stats *)

Inductive answer : Type :=
| Answer404
| Answer200 (s : stats).

Definition get_stats : M answer :=
  logger INFO GetRequestReceived ;;
  f <- read_disk;
  match f with
  | NoFile => logger ERROR FileNotFound ;; ret Answer404
  | Truncated => raise JSONDecodeError
  | Document event_stats =>
      logger DEBUG (StatisticsData event_stats) ;;
      logger INFO GetRequestCompleted ;;
      ret (Answer200 event_stats)
  end.

(** ** Periodic processing *)

(** The loop over the flight events. *)
Fixpoint update_flight_duration (flight_events : list event) (s : stats) : result stats :=
  match flight_events with
  | [] => Ok s
  | ev :: rest =>
      match ev !! "flight_duration" with
      | None | Some JNull => update_flight_duration rest s
      | Some (JNum duration) =>
          let s := set_max_flight_duration (py_max (max_flight_duration s) duration) s in
          let s := set_min_flight_duration (py_min (min_flight_duration s) duration) s in
          update_flight_duration rest s
      | Some (JText _) => Raise TypeError
      end
  end.

(** The loop over the check-in events. *)
Fixpoint update_luggage_weight (checkin_events : list event) (s : stats) : result stats :=
  match checkin_events with
  | [] => Ok s
  | ev :: rest =>
      match ev !! "luggage_weight" with
      | None | Some JNull => update_luggage_weight rest s
      | Some (JNum weight) =>
          let s := set_max_luggage_weight (py_max (max_luggage_weight s) weight) s in
          let s := set_min_luggage_weight (py_min (min_luggage_weight s) weight) s in
          update_luggage_weight rest s
      | Some (JText _) => Raise TypeError
      end
  end.

(** Lines 124 to 139: the counters, then the two loops. *)
Definition update_stats (flight_events checkin_events : list event) (s : stats) : result stats :=
  let s := set_num_flight_schedules
             (num_flight_schedules s + Z.of_nat (length flight_events)) s in
  let s := set_num_passenger_checkins
             (num_passenger_checkins s + Z.of_nat (length checkin_events)) s in
  match update_flight_duration flight_events s with
  | Ok s => update_luggage_weight checkin_events s
  | Raise e => Raise e
  end.

(** [response.json()] *)
Definition json (b : body) : M (list event) :=
  match b with
  | NotJson => raise JSONDecodeError
  | Json events => ret events
  end.

Section Cycle.

Variable config : app_config.
Variable network : query_url -> reply.

Definition httpx_get (u : query_url) : M (Z * body) :=
  fun w =>
    let w' := mk_world (disk w) (log w) (requests w ++ [u]) in
    match network u with
    | TransportFailure => (Raise TransportError, w')
    | Response status_code content => (Ok (status_code, content), w')
    end.

(** One query of the storage service, lines 107-113 and 115-121. *)
Definition fetch (c : category) (u : query_url) : M (list event) :=
  response <- httpx_get u;
  if (fst response =? 200)%Z then
    events <- json (snd response);
    logger INFO (Received c (length events)) ;;
    ret events
  else
    logger ERROR (ErrorFetching c (fst response)) ;;
    ret [].

Definition populate_stats (now : datetime) : M unit :=
  logger INFO ProcessingStarted ;;
  s <- read_existing_stats;
  let last_updated_timestamp := last_updated s in
  let last_updated := strptime last_updated_timestamp in
  let start_timestamp := strftime last_updated in
  let end_timestamp := strftime now in
  let flight_query_url :=
    mk_query_url (flight_schedules_url config) start_timestamp end_timestamp in
  let checkin_query_url :=
    mk_query_url (passenger_checkins_url config) start_timestamp end_timestamp in
  flight_events <- fetch FlightSchedules flight_query_url;
  checkin_events <- fetch PassengerCheckins checkin_query_url;
  s <- lift (update_stats flight_events checkin_events s);
  let s := set_last_updated (strftime now) s in
  write_stats s ;;
  logger DEBUG (UpdatedStatistics s) ;;
  logger INFO ProcessingEnded.

End Cycle.

(** ** The scheduler

    [init_scheduler] has the background scheduler call [populate_stats] at
    every interval; an exception of a job is caught by the scheduler and
    the next job runs as usual.  A [tick] is what one job finds outside:
    the clock reading and the behaviour of the network. *)

Record tick : Type := mk_tick {
  clock : datetime;
  net : query_url -> reply
}.

Definition run_job (config : app_config) (w : world) (t : tick) : world :=
  snd (populate_stats config (net t) (clock t) w).

Definition scheduler (config : app_config) (ticks : list tick) (w : world) : world :=
  fold_left (run_job config) ticks w.

(** ** Reading a cycle

    The two categories are handled by the same lines, written twice in
    [populate_stats]; the definitions below name what the lines read and
    write for one category, so that a property can be stated once for
    both. *)

Definition counter (c : category) (s : stats) : Z :=
  match c with
  | FlightSchedules => num_flight_schedules s
  | PassengerCheckins => num_passenger_checkins s
  end.

Definition maximum (c : category) (s : stats) : number :=
  match c with
  | FlightSchedules => max_flight_duration s
  | PassengerCheckins => max_luggage_weight s
  end.

Definition minimum (c : category) (s : stats) : number :=
  match c with
  | FlightSchedules => min_flight_duration s
  | PassengerCheckins => min_luggage_weight s
  end.

Definition measurement (c : category) : string :=
  match c with
  | FlightSchedules => "flight_duration"
  | PassengerCheckins => "luggage_weight"
  end.

Definition endpoint (config : app_config) (c : category) : string :=
  match c with
  | FlightSchedules => flight_schedules_url config
  | PassengerCheckins => passenger_checkins_url config
  end.

(** The URL queried for category [c] by a cycle that starts from the
    document [s] at the time [now]. *)
Definition query (config : app_config) (c : category) (s : stats) (now : datetime) : query_url :=
  mk_query_url (endpoint config c) (strftime (strptime (last_updated s))) (strftime now).

Definition other (c : category) : category :=
  match c with
  | FlightSchedules => PassengerCheckins
  | PassengerCheckins => FlightSchedules
  end.

(** One loop of [populate_stats], on the pair (maximum, minimum). *)
Fixpoint fold_extrema (key : string) (events : list event) (acc : number * number)
  : result (number * number) :=
  match events with
  | [] => Ok acc
  | ev :: rest =>
      match ev !! key with
      | None | Some JNull => fold_extrema key rest acc
      | Some (JNum d) => fold_extrema key rest (py_max (fst acc) d, py_min (snd acc) d)
      | Some (JText _) => Raise TypeError
      end
  end.

(** No event of the batch has a text where the measurement is expected. *)
Definition numeric_batch (key : string) (events : list event) : bool :=
  forallb (fun ev : event => match ev !! key with Some (JText _) => false | _ => true end) events.

(** Some event of the batch has its measurement field present. *)
Definition measured (key : string) (events : list event) : Prop :=
  exists (ev : event) (d : number), In ev events /\ ev !! key = Some (JNum d).

(** Some event of the batch has a measurement that is a number, as
    opposed to not-a-number. *)
Definition measured_number (key : string) (events : list event) : Prop :=
  exists (ev : event) (d : number),
    In ev events /\ ev !! key = Some (JNum d) /\ d <> NaN.

(** What [read_existing_stats] returns for a state of the file. *)
Definition loaded (f : file) : result stats :=
  match f with
  | NoFile => Ok DEFAULT_STATS
  | Truncated => Raise JSONDecodeError
  | Document s => Ok s
  end.

(** The document a reader gets once the file holds one, the defaults
    before. *)
Definition persisted (f : file) : stats :=
  match f with
  | Document s => s
  | _ => DEFAULT_STATS
  end.

(** The batch that [fetch] hands to [populate_stats] for a reply. *)
Definition batch_of (r : reply) : result (list event) :=
  match r with
  | TransportFailure => Raise TransportError
  | Response status_code content =>
      if (status_code =? 200)%Z then
        match content with
        | NotJson => Raise JSONDecodeError
        | Json events => Ok events
        end
      else Ok []
  end.

(** The lines that [fetch] logs for a reply. *)
Definition fetch_log (c : category) (r : reply) : list (level * message) :=
  match r with
  | TransportFailure => []
  | Response status_code content =>
      if (status_code =? 200)%Z then
        match content with
        | NotJson => []
        | Json events => [(INFO, Received c (length events))]
        end
      else [(ERROR, ErrorFetching c status_code)]
  end.

(** The batches a job folds into the document: those of its two fetches
    when it runs to its end, none when an exception ends it. *)
Definition folded (config : app_config) (w : world) (t : tick) : list event * list event :=
  match loaded (disk w) with
  | Ok s =>
      match batch_of (net t (query config FlightSchedules s (clock t))),
            batch_of (net t (query config PassengerCheckins s (clock t))) with
      | Ok flight_events, Ok checkin_events =>
          match update_stats flight_events checkin_events s with
          | Ok _ => (flight_events, checkin_events)
          | Raise _ => ([], [])
          end
      | _, _ => ([], [])
      end
  | Raise _ => ([], [])
  end.

Definition batch (c : category) (p : list event * list event) : list event :=
  match c with
  | FlightSchedules => fst p
  | PassengerCheckins => snd p
  end.

(** The number of events of category [c] folded by the jobs of [ticks],
    run one after the other from [w]. *)
Fixpoint folded_count (config : app_config) (c : category) (ticks : list tick) (w : world) : Z :=
  match ticks with
  | [] => 0
  | t :: rest =>
      Z.of_nat (length (batch c (folded config w t)))
      + folded_count config c rest (run_job config w t)
  end.

(** ** Vocabulary of the statements *)

(** One of the two infinities. *)
Definition infinite (x : number) : Prop := x = PosInf \/ x = NegInf.

(** A document whose counters are zero, whose four extrema are infinite
    and whose checkpoint is the fixed epoch. *)
Definition all_sentinels (s : stats) : Prop :=
  num_flight_schedules s = 0 /\ num_passenger_checkins s = 0 /\
  infinite (max_luggage_weight s) /\ infinite (min_luggage_weight s) /\
  infinite (max_flight_duration s) /\ infinite (min_flight_duration s) /\
  last_updated s = epoch_2000.

(** The four extrema of a document. *)
Definition extrema (s : stats) : number * number * number * number :=
  (max_luggage_weight s, min_luggage_weight s, max_flight_duration s, min_flight_duration s).

(** The cycle is not aborted: [populate_stats] returns and the file holds
    a document afterwards. *)
Definition completes (config : app_config) (network : query_url -> reply) (now : datetime)
           (w : world) : Prop :=
  exists (w' : world) (s' : stats),
    populate_stats config network now w = (Ok tt, w') /\ disk w' = Document s'.

(** The batch [events] of category [c] is the one the cycle folds into the
    persisted document. *)
Definition batch_folded (config : app_config) (network : query_url -> reply) (now : datetime)
           (w : world) (c : category) (events : list event) : Prop :=
  exists (s s' : stats) (w' : world),
    loaded (disk w) = Ok s /\
    populate_stats config network now w = (Ok tt, w') /\
    disk w' = Document s' /\
    counter c s' = counter c s + Z.of_nat (length events) /\
    fold_extrema (measurement c) events (maximum c s, minimum c s)
    = Ok (maximum c s', minimum c s').

(** Partial-failure isolation: the cycle sends both queries and runs to
    its end; the category [failing] keeps its counter and extrema; the other
    category is updated from its own values and its batch [events] alone. *)
Definition isolated (config : app_config) (network : query_url -> reply) (now : datetime)
           (w : world) (failing : category) (events : list event) : Prop :=
  exists (s s' : stats) (w' : world),
    loaded (disk w) = Ok s /\
    populate_stats config network now w = (Ok tt, w') /\
    disk w' = Document s' /\
    requests w' = requests w ++ [query config FlightSchedules s now;
                                 query config PassengerCheckins s now] /\
    counter failing s' = counter failing s /\
    maximum failing s' = maximum failing s /\
    minimum failing s' = minimum failing s /\
    counter (other failing) s' = counter (other failing) s + Z.of_nat (length events) /\
    fold_extrema (measurement (other failing)) events
                 (maximum (other failing) s, minimum (other failing) s)
    = Ok (maximum (other failing) s', minimum (other failing) s').

(** The replies that [populate_stats] copes with: an HTTP response whose
    status is not 200, whatever its body, or a response of status 200 whose
    body decodes to a batch with numeric measurements. *)
Definition handled (c : category) (r : reply) : Prop :=
  match r with
  | TransportFailure => False
  | Response status_code content =>
      status_code <> 200 \/
      exists events : list event,
        content = Json events /\ numeric_batch (measurement c) events = true
  end.

(** ** A save seen by a concurrent reader

    [write_stats] is two statements, the opening of the file for writing
    and the dump.  A reader on another thread runs before the save, between
    its two steps, or after it. *)

Definition write_stats_steps (s : stats) : list (M unit) := [open_w; json_dump s].

Fixpoint run_steps (steps : list (M unit)) (w : world) : world :=
  match steps with
  | [] => w
  | step :: rest => run_steps rest (snd (step w))
  end.

(** What [read_existing_stats] returns when it runs after the first [k]
    steps of the save of [s]. *)
Definition observed (k : nat) (s : stats) (w : world) : result stats :=
  fst (read_existing_stats (run_steps (firstn k (write_stats_steps s)) w)).

(** The save of [new] over [prior] is atomic for a reader: at whatever
    point the reader runs, it gets the whole prior document or the whole new
    one. *)
Definition atomic_save (prior new : stats) (w : world) : Prop :=
  forall k : nat, observed k new w = Ok prior \/ observed k new w = Ok new.

(** ** Sample inputs *)

Module Sample.

Definition config : app_config :=
  mk_app_config "http://storage:8090/flights/schedule" "http://storage:8090/passenger/checkin".

Definition now : datetime := mk_datetime 1700000000 250000.

Definition later : datetime := mk_datetime 1700000005 120000.

Definition fresh : world := mk_world NoFile [] [].

Definition flight120 : event :=
  {[ "flight_id" := JText "AC101"; "flight_duration" := JNum (Fin 120) ]}.

Definition flight90 : event :=
  {[ "flight_id" := JText "AC202"; "flight_duration" := JNum (Fin 90) ]}.

Definition checkin42 : event :=
  {[ "checkin_id" := JText "C-7"; "luggage_weight" := JNum (Fin 42) ]}.

(** A flight whose duration was sent as the token [NaN]. *)
Definition flight_nan : event :=
  {[ "flight_id" := JText "AC404"; "flight_duration" := JNum NaN ]}.

(** A network that answers the flight query with the first reply and
    every other query with the second one. *)
Definition serve (flight_reply checkin_reply : reply) (u : query_url) : reply :=
  if String.eqb (base_url u) (flight_schedules_url config) then flight_reply else checkin_reply.

(** Both event stores answer with an empty batch. *)
Definition quiet : query_url -> reply :=
  serve (Response 200 (Json [])) (Response 200 (Json [])).

(** Two flights are returned; the check-in store answers 500. *)
Definition checkins_failing : query_url -> reply :=
  serve (Response 200 (Json [flight120; flight90])) (Response 500 NotJson).

(** Both event stores answer with an error status. *)
Definition both_failing : query_url -> reply :=
  serve (Response 503 NotJson) (Response 404 (Json [])).

(** The flight store cannot be reached; the check-in store has a batch. *)
Definition flights_unreachable : query_url -> reply :=
  serve TransportFailure (Response 200 (Json [checkin42])).

(** The check-in store cannot be reached. *)
Definition checkins_unreachable : query_url -> reply :=
  serve (Response 200 (Json [])) TransportFailure.

(** The flight store answers 200 with a body that is not JSON. *)
Definition flights_garbled : query_url -> reply :=
  serve (Response 200 NotJson) (Response 200 (Json [])).

(** The flight store answers 201 with a batch of one flight. *)
Definition flights_created : query_url -> reply :=
  serve (Response 201 (Json [flight120])) (Response 200 (Json [])).

(** Two jobs: the first folds two flights, the second is ended by an
    exception. *)
Definition two_ticks : list tick :=
  [mk_tick now checkins_failing; mk_tick later flights_unreachable].

(** A document of earlier cycles, and a world whose file holds it. *)
Definition seen : stats := mk_stats 2 1 (Fin 42) (Fin 42) (Fin 120) (Fin 90) 1600000000.

Definition stored : world := mk_world (Document seen) [] [].

End Sample.

(** ** Vocabulary of the further properties *)

(** The two batches of a cycle in which only category [c] has events. *)
Definition alone (c : category) (events : list event) : list event * list event :=
  match c with
  | FlightSchedules => (events, [])
  | PassengerCheckins => ([], events)
  end.

(** No event of the batch carries the measurement: the key is missing or
    its value is [null]. *)
Definition unmeasured (key : string) (events : list event) : Prop :=
  forall ev : event, In ev events -> ev !! key = None \/ ev !! key = Some JNull.

(** Two numbers of the same value; [max] and [min] may return either of
    two equal arguments, an integer or the float equal to it.  Two
    not-a-number values count as the same here. *)
Definition same_number (a b : number) : Prop := a = b \/ (le a b /\ le b a).

(** Further sample inputs. *)
Module Scenario.

(** A flight whose duration is a text. *)
Definition flight_text : event :=
  {[ "flight_id" := JText "AC303"; "flight_duration" := JText "2h" ]}.

(** A check-in with no weight, and one whose weight is [null]. *)
Definition checkin_unweighed : event := {[ "checkin_id" := JText "C-8" ]}.

Definition checkin_null : event :=
  {[ "checkin_id" := JText "C-9"; "luggage_weight" := JNull ]}.

(** A check-in with a negative weight. *)
Definition checkin_negative : event := {[ "luggage_weight" := JNum (Fin (-3)) ]}.

(** Both stores answer 200; the flight batch holds a text duration. *)
Definition text_duration : query_url -> reply :=
  Sample.serve (Response 200 (Json [Sample.flight120; flight_text]))
               (Response 200 (Json [Sample.checkin42])).

(** A world whose stats file was opened for writing and never dumped. *)
Definition emptied : world := mk_world Truncated [] [].

End Scenario.

(** * Properties *)

(** ** The order of numbers *)

Module NumberFacts.

Lemma le_Fin (x y : Q) : le (Fin x) (Fin y) <-> (x <= y)%Q.
Proof.
  unfold le; simpl. rewrite Qle_alt.
  destruct (x ?= y)%Q; simpl; split; congruence.
Qed.

Lemma gt_Fin (x y : Q) : gt (Fin x) (Fin y) = true <-> (y < x)%Q.
Proof.
  simpl. change (y < x)%Q with (x > y)%Q. rewrite Qgt_alt.
  destruct (x ?= y)%Q; split; congruence.
Qed.

Lemma le_not_nan (a b : number) : le a b -> a <> NaN /\ b <> NaN.
Proof. destruct a, b; unfold le; simpl; split; congruence. Qed.

Lemma gt_not_nan (d a : number) : gt d a = true -> d <> NaN /\ a <> NaN.
Proof. destruct a, d; simpl; split; congruence. Qed.

(** On numbers other than not-a-number, [a <= b] is [not (a > b)]. *)
Lemma le_iff_not_gt (a b : number) :
  a <> NaN -> b <> NaN -> (le a b <-> gt a b = false).
Proof.
  intros Ha Hb. unfold le.
  destruct a as [| |x|], b as [| |y|]; try congruence; simpl;
    try (split; congruence).
  destruct (x ?= y)%Q; simpl; split; congruence.
Qed.

Lemma le_not_gt (a b : number) : le a b -> gt a b = false.
Proof.
  intros H. destruct (le_not_nan _ _ H) as [Ha Hb]. apply (le_iff_not_gt a b Ha Hb), H.
Qed.

Lemma le_refl (a : number) : a <> NaN -> le a a.
Proof.
  destruct a as [| |x|]; try reflexivity; [congruence|].
  intros _. apply le_Fin, Qle_refl.
Qed.

Lemma le_trans (a b c : number) : le a b -> le b c -> le a c.
Proof.
  destruct a as [| |x|], b as [| |y|], c as [| |z|]; try (unfold le; simpl; congruence).
  rewrite !le_Fin. apply Qle_trans.
Qed.

Lemma le_total (a b : number) : a <> NaN -> b <> NaN -> le a b \/ le b a.
Proof.
  destruct a as [| |x|], b as [| |y|]; try congruence; intros _ _;
    try (unfold le; simpl; tauto).
  rewrite !le_Fin. destruct (Qlt_le_dec x y) as [H|H]; [left; apply Qlt_le_weak, H | right; exact H].
Qed.

(** When [d > a] holds, [a <= d]. *)
Lemma gt_le (d a : number) : gt d a = true -> le a d.
Proof.
  destruct a as [| |x|], d as [| |y|]; try (unfold le; simpl; congruence).
  rewrite gt_Fin, le_Fin. apply Qlt_le_weak.
Qed.

Lemma gt_irrefl (a : number) : gt a a = false.
Proof.
  destruct a as [| |x|]; try reflexivity.
  simpl. assert (H : (x ?= x)%Q = Eq) by (apply Qeq_alt, Qeq_refl). rewrite H. reflexivity.
Qed.

(** A number that is not above [m] is not above a number above [m]. *)
Lemma not_gt_below (d m e : number) :
  gt d m = false -> gt e m = true -> gt d e = false.
Proof.
  destruct d as [| |x|], m as [| |y|], e as [| |z|]; cbn [gt]; try congruence.
  intros H1 H2.
  assert (Hxy : (x <= y)%Q) by (apply Qle_alt; destruct (x ?= y)%Q; congruence).
  assert (Hyz : (y < z)%Q).
  { change (z > y)%Q. apply Qgt_alt. destruct (z ?= y)%Q; congruence. }
  assert (Hxz : (x <= z)%Q) by (apply Qlt_le_weak; eapply Qle_lt_trans; eassumption).
  pose proof (proj1 (Qle_alt x z) Hxz) as Hc. destruct (x ?= z)%Q; congruence.
Qed.

(** A number that [m] is not above is not below a number below [m]. *)
Lemma not_gt_above (d m e : number) :
  gt m d = false -> gt m e = true -> gt e d = false.
Proof.
  destruct d as [| |x|], m as [| |y|], e as [| |z|]; cbn [gt]; try congruence.
  intros H1 H2.
  assert (Hyx : (y <= x)%Q) by (apply Qle_alt; destruct (y ?= x)%Q; congruence).
  assert (Hzy : (z < y)%Q).
  { change (y > z)%Q. apply Qgt_alt. destruct (y ?= z)%Q; congruence. }
  assert (Hzx : (z <= x)%Q) by (apply Qlt_le_weak; eapply Qlt_le_trans; eassumption).
  pose proof (proj1 (Qle_alt z x) Hzx) as Hc. destruct (z ?= x)%Q; congruence.
Qed.

Lemma py_max_cases (a d : number) :
  (gt d a = true /\ py_max a d = d) \/ (gt d a = false /\ py_max a d = a).
Proof. unfold py_max. destruct (gt d a); auto. Qed.

Lemma py_min_cases (a d : number) :
  (gt a d = true /\ py_min a d = d) \/ (gt a d = false /\ py_min a d = a).
Proof. unfold py_min, lt. destruct (gt a d); auto. Qed.

(** Not-a-number never replaces a stored extremum, and a stored
    not-a-number is never replaced. *)
Lemma py_max_not_nan (a d : number) : a <> NaN -> py_max a d <> NaN.
Proof.
  intros Ha. destruct (py_max_cases a d) as [[H ->]|[H ->]]; [apply (gt_not_nan _ _ H)|exact Ha].
Qed.

Lemma py_min_not_nan (a d : number) : a <> NaN -> py_min a d <> NaN.
Proof.
  intros Ha. destruct (py_min_cases a d) as [[H ->]|[H ->]]; [apply (gt_not_nan _ _ H)|exact Ha].
Qed.

Lemma py_max_of_nan (d : number) : py_max NaN d = NaN.
Proof. destruct d; reflexivity. Qed.

Lemma py_min_of_nan (d : number) : py_min NaN d = NaN.
Proof. destruct d; reflexivity. Qed.

Lemma py_max_ge_l (a d : number) : a <> NaN -> le a (py_max a d).
Proof.
  intros Ha. destruct (py_max_cases a d) as [[H ->]|[H ->]]; [apply gt_le, H | apply le_refl, Ha].
Qed.

Lemma py_max_ge_r (a d : number) : a <> NaN -> d <> NaN -> le d (py_max a d).
Proof.
  intros Ha Hd. destruct (py_max_cases a d) as [[H ->]|[H ->]];
    [apply le_refl, Hd | apply (le_iff_not_gt d a Hd Ha), H].
Qed.

Lemma py_min_le_l (a d : number) : a <> NaN -> le (py_min a d) a.
Proof.
  intros Ha. destruct (py_min_cases a d) as [[H ->]|[H ->]]; [apply gt_le, H | apply le_refl, Ha].
Qed.

Lemma py_min_le_r (a d : number) : a <> NaN -> d <> NaN -> le (py_min a d) d.
Proof.
  intros Ha Hd. destruct (py_min_cases a d) as [[H ->]|[H ->]];
    [apply le_refl, Hd | apply (le_iff_not_gt a d Ha Hd), H].
Qed.

(** A measurement that is not above the stored maximum leaves it as it is,
    the very same value. *)
Lemma py_max_absorb (a d : number) : gt d a = false -> py_max a d = a.
Proof. unfold py_max. intros ->. reflexivity. Qed.

Lemma py_min_absorb (a d : number) : gt a d = false -> py_min a d = a.
Proof. unfold py_min, lt. intros ->. reflexivity. Qed.

End NumberFacts.
Import NumberFacts.

(** ** The two loops *)

Lemma update_flight_duration_fold (events : list event) (s : stats) :
  update_flight_duration events s =
  match fold_extrema "flight_duration" events (max_flight_duration s, min_flight_duration s) with
  | Ok (mx, mn) => Ok (set_min_flight_duration mn (set_max_flight_duration mx s))
  | Raise e => Raise e
  end.
Proof.
  revert s. induction events as [|ev rest IH]; intros s; simpl.
  - destruct s; reflexivity.
  - destruct (ev !! "flight_duration") as [[|d|t]|]; auto.
    rewrite IH. simpl.
    destruct (fold_extrema _ rest _) as [[mx mn]|e]; reflexivity.
Qed.

Lemma update_luggage_weight_fold (events : list event) (s : stats) :
  update_luggage_weight events s =
  match fold_extrema "luggage_weight" events (max_luggage_weight s, min_luggage_weight s) with
  | Ok (mx, mn) => Ok (set_min_luggage_weight mn (set_max_luggage_weight mx s))
  | Raise e => Raise e
  end.
Proof.
  revert s. induction events as [|ev rest IH]; intros s; simpl.
  - destruct s; reflexivity.
  - destruct (ev !! "luggage_weight") as [[|d|t]|]; auto.
    rewrite IH. simpl.
    destruct (fold_extrema _ rest _) as [[mx mn]|e]; reflexivity.
Qed.

(** [update_stats], field by field. *)
Lemma update_stats_fields (flight_events checkin_events : list event) (s s' : stats) :
  update_stats flight_events checkin_events s = Ok s' <->
  exists mxf mnf mxl mnl,
    fold_extrema "flight_duration" flight_events
      (max_flight_duration s, min_flight_duration s) = Ok (mxf, mnf) /\
    fold_extrema "luggage_weight" checkin_events
      (max_luggage_weight s, min_luggage_weight s) = Ok (mxl, mnl) /\
    s' = mk_stats (num_flight_schedules s + Z.of_nat (length flight_events))
                  (num_passenger_checkins s + Z.of_nat (length checkin_events))
                  mxl mnl mxf mnf (last_updated s).
Proof.
  unfold update_stats.
  rewrite update_flight_duration_fold. simpl.
  destruct (fold_extrema "flight_duration" flight_events _) as [[mxf mnf]|e].
  - rewrite update_luggage_weight_fold. simpl.
    destruct (fold_extrema "luggage_weight" checkin_events _) as [[mxl mnl]|e].
    + split.
      * intros [= <-]. exists mxf, mnf, mxl, mnl. auto.
      * intros (? & ? & ? & ? & [= <- <-] & [= <- <-] & ->). reflexivity.
    + split; [discriminate|]. intros (? & ? & ? & ? & _ & H & _). discriminate.
  - split; [discriminate|]. intros (? & ? & ? & ? & H & _). discriminate.
Qed.

(** The same, read for one category. *)
Lemma update_stats_category (flight_events checkin_events : list event) (s s' : stats) :
  update_stats flight_events checkin_events s = Ok s' ->
  forall c : category,
    counter c s' = counter c s + Z.of_nat (length (batch c (flight_events, checkin_events))) /\
    fold_extrema (measurement c) (batch c (flight_events, checkin_events))
      (maximum c s, minimum c s) = Ok (maximum c s', minimum c s').
Proof.
  intros H c. apply update_stats_fields in H.
  destruct H as (mxf & mnf & mxl & mnl & Hf & Hl & ->).
  destruct c; simpl; auto.
Qed.

Lemma update_stats_last_updated (flight_events checkin_events : list event) (s s' : stats) :
  update_stats flight_events checkin_events s = Ok s' -> last_updated s' = last_updated s.
Proof.
  intros H. apply update_stats_fields in H.
  destruct H as (mxf & mnf & mxl & mnl & _ & _ & ->). reflexivity.
Qed.

(** ** One loop *)

Lemma fold_extrema_numeric (key : string) (events : list event) (acc : number * number) :
  numeric_batch key events = true <-> exists acc', fold_extrema key events acc = Ok acc'.
Proof.
  revert acc. induction events as [|ev rest IH]; intros acc; simpl.
  - split; eauto.
  - destruct (ev !! key) as [[|d|t]|]; simpl; auto.
    split; [discriminate|]. intros [acc' H]; discriminate.
Qed.

Lemma update_stats_total (flight_events checkin_events : list event) (s : stats) :
  numeric_batch "flight_duration" flight_events = true ->
  numeric_batch "luggage_weight" checkin_events = true ->
  exists s', update_stats flight_events checkin_events s = Ok s'.
Proof.
  intros Hf Hl.
  apply (fold_extrema_numeric _ _ (max_flight_duration s, min_flight_duration s)) in Hf.
  apply (fold_extrema_numeric _ _ (max_luggage_weight s, min_luggage_weight s)) in Hl.
  destruct Hf as [[mxf mnf] Hf], Hl as [[mxl mnl] Hl].
  eexists. apply update_stats_fields. exists mxf, mnf, mxl, mnl. eauto.
Qed.

(** A stored extremum that is not-a-number stays so; one that is a number
    stays a number, the maximum only growing and the minimum only
    shrinking. *)
Lemma fold_extrema_of_nan (key : string) (events : list event) (acc acc' : number * number) :
  fold_extrema key events acc = Ok acc' ->
  (fst acc = NaN -> fst acc' = NaN) /\ (snd acc = NaN -> snd acc' = NaN).
Proof.
  revert acc. induction events as [|ev rest IH]; intros acc; simpl.
  - intros [= <-]. auto.
  - destruct (ev !! key) as [[|d|t]|]; try discriminate; auto.
    intros H. apply IH in H. simpl in H. destruct H as [H1 H2]. split.
    + intros E. apply H1. rewrite E. apply py_max_of_nan.
    + intros E. apply H2. rewrite E. apply py_min_of_nan.
Qed.

Lemma fold_extrema_widens (key : string) (events : list event) (acc acc' : number * number) :
  fold_extrema key events acc = Ok acc' ->
  (fst acc <> NaN -> fst acc' <> NaN /\ le (fst acc) (fst acc')) /\
  (snd acc <> NaN -> snd acc' <> NaN /\ le (snd acc') (snd acc)).
Proof.
  revert acc. induction events as [|ev rest IH]; intros acc; simpl.
  - intros [= <-]. split; intros H; (split; [exact H|apply le_refl, H]).
  - destruct (ev !! key) as [[|d|t]|]; try discriminate; auto.
    intros H. apply IH in H. simpl in H. destruct H as [H1 H2]. split.
    + intros Ha. destruct (H1 (py_max_not_nan _ d Ha)) as [Hn Hle].
      split; [exact Hn|]. eapply le_trans; [apply py_max_ge_l, Ha | exact Hle].
    + intros Ha. destruct (H2 (py_min_not_nan _ d Ha)) as [Hn Hle].
      split; [exact Hn|]. eapply le_trans; [exact Hle | apply py_min_le_l, Ha].
Qed.

(** Every measurement of the batch that is a number lies between the new
    minimum and the new maximum, when these were numbers before. *)
Lemma fold_extrema_bounds (key : string) (events : list event) (acc acc' : number * number) :
  fold_extrema key events acc = Ok acc' ->
  forall (ev : event) (d : number), In ev events -> ev !! key = Some (JNum d) -> d <> NaN ->
    (snd acc <> NaN -> le (snd acc') d) /\ (fst acc <> NaN -> le d (fst acc')).
Proof.
  revert acc. induction events as [|ev0 rest IH]; intros acc H ev d Hin Hd Hnn; simpl in *.
  - contradiction.
  - destruct Hin as [->|Hin].
    + rewrite Hd in H. apply fold_extrema_widens in H. simpl in H. destruct H as [H1 H2]. split.
      * intros Ha. destruct (H2 (py_min_not_nan _ d Ha)) as [_ Hle].
        eapply le_trans; [exact Hle | apply py_min_le_r; assumption].
      * intros Ha. destruct (H1 (py_max_not_nan _ d Ha)) as [_ Hle].
        eapply le_trans; [|exact Hle]. apply py_max_ge_r; assumption.
    + destruct (ev0 !! key) as [[|d0|t]|]; try discriminate; eauto.
      destruct (IH _ H ev d Hin Hd Hnn) as [H1 H2]. simpl in H1, H2. split.
      * intros Ha. apply H1, py_min_not_nan, Ha.
      * intros Ha. apply H2, py_max_not_nan, Ha.
Qed.

(** A measurement that is not above the maximum, or not below the
    minimum, stays so through a loop. *)
Lemma fold_extrema_keeps_beaten (key : string) (events : list event)
      (acc acc' : number * number) (d : number) :
  fold_extrema key events acc = Ok acc' ->
  (gt d (fst acc) = false -> gt d (fst acc') = false) /\
  (gt (snd acc) d = false -> gt (snd acc') d = false).
Proof.
  revert acc. induction events as [|ev rest IH]; intros acc; simpl.
  - intros [= <-]. auto.
  - destruct (ev !! key) as [[|d0|t]|]; try discriminate; auto.
    intros H. apply IH in H. simpl in H. destruct H as [H1 H2]. split.
    + intros Hd. apply H1.
      destruct (py_max_cases (fst acc) d0) as [[Hg ->]|[Hg ->]];
        [apply (not_gt_below d (fst acc) d0 Hd Hg) | exact Hd].
    + intros Hd. apply H2.
      destruct (py_min_cases (snd acc) d0) as [[Hg ->]|[Hg ->]];
        [apply (not_gt_above d (snd acc) d0 Hd Hg) | exact Hd].
Qed.

(** After a loop no measurement of the batch is above the maximum or below
    the minimum, not-a-number included. *)
Lemma fold_extrema_beaten (key : string) (events : list event) (acc acc' : number * number) :
  fold_extrema key events acc = Ok acc' ->
  forall (ev : event) (d : number), In ev events -> ev !! key = Some (JNum d) ->
    gt d (fst acc') = false /\ gt (snd acc') d = false.
Proof.
  revert acc. induction events as [|ev0 rest IH]; intros acc H ev d Hin Hd; simpl in *.
  - contradiction.
  - destruct Hin as [->|Hin].
    + rewrite Hd in H. apply (fold_extrema_keeps_beaten _ _ _ _ d) in H. simpl in H.
      destruct H as [H1 H2]. split.
      * apply H1. destruct (py_max_cases (fst acc) d) as [[Hg ->]|[Hg ->]];
          [apply gt_irrefl | exact Hg].
      * apply H2. destruct (py_min_cases (snd acc) d) as [[Hg ->]|[Hg ->]];
          [apply gt_irrefl | exact Hg].
    + destruct (ev0 !! key) as [[|d0|t]|]; try discriminate; eauto.
Qed.

(** An order between minimum and maximum is kept by a loop. *)
Lemma fold_extrema_keeps_order (key : string) (events : list event) (acc acc' : number * number) :
  fold_extrema key events acc = Ok acc' ->
  le (snd acc) (fst acc) -> le (snd acc') (fst acc').
Proof.
  intros H Hle. destruct (le_not_nan _ _ Hle) as [Hmin Hmax].
  apply fold_extrema_widens in H. destruct H as [H1 H2].
  destruct (H1 Hmax) as [_ Hle1]. destruct (H2 Hmin) as [_ Hle2].
  eapply le_trans; [exact Hle2|]. eapply le_trans; [exact Hle | exact Hle1].
Qed.

(** A batch none of whose measurements is above the stored maximum or
    below the stored minimum leaves them as they are. *)
Lemma fold_extrema_absorb (key : string) (events : list event) (acc : number * number) :
  numeric_batch key events = true ->
  (forall (ev : event) (d : number), In ev events -> ev !! key = Some (JNum d) ->
     gt d (fst acc) = false /\ gt (snd acc) d = false) ->
  fold_extrema key events acc = Ok acc.
Proof.
  induction events as [|ev rest IH]; intros Hnum Hb; simpl in *.
  - reflexivity.
  - assert (Hrest : fold_extrema key rest acc = Ok acc).
    { apply IH.
      - destruct (ev !! key) as [[|d|t]|]; simpl in Hnum; congruence.
      - intros ev' d Hin. apply Hb. right. exact Hin. }
    destruct (ev !! key) as [[|d|t]|] eqn:E; simpl in Hnum; try discriminate; auto.
    destruct (Hb ev d) as [H1 H2]; auto.
    rewrite (py_max_absorb _ _ H1), (py_min_absorb _ _ H2).
    destruct acc; simpl. exact Hrest.
Qed.

(** ** One cycle *)

Lemma read_existing_stats_loaded (w : world) :
  read_existing_stats w = (loaded (disk w), w).
Proof.
  unfold read_existing_stats, bind, read_disk. destruct (disk w); reflexivity.
Qed.

Lemma fetch_batch_of (network : query_url -> reply) (c : category) (u : query_url) (w : world) :
  fetch network c u w =
  (batch_of (network u),
   mk_world (disk w) (log w ++ fetch_log c (network u)) (requests w ++ [u])).
Proof.
  unfold fetch, bind, httpx_get, batch_of, fetch_log.
  destruct (network u) as [|status_code content]; simpl.
  - rewrite app_nil_r. reflexivity.
  - destruct (status_code =? 200)%Z; [|reflexivity].
    destruct content; simpl; [|reflexivity].
    rewrite app_nil_r. reflexivity.
Qed.

Lemma write_stats_document (s : stats) (w : world) :
  write_stats s w = (Ok tt, mk_world (Document s) (log w) (requests w)).
Proof. reflexivity. Qed.

(** The whole of [populate_stats], outcome by outcome. *)
Lemma populate_stats_unfold (config : app_config) (network : query_url -> reply)
      (now : datetime) (w : world) :
  populate_stats config network now w =
  match loaded (disk w) with
  | Raise e => (Raise e, mk_world (disk w) (log w ++ [(INFO, ProcessingStarted)]) (requests w))
  | Ok s =>
      let flight_query_url := query config FlightSchedules s now in
      let checkin_query_url := query config PassengerCheckins s now in
      let log1 := (log w ++ [(INFO, ProcessingStarted)])
                    ++ fetch_log FlightSchedules (network flight_query_url) in
      let log2 := log1 ++ fetch_log PassengerCheckins (network checkin_query_url) in
      match batch_of (network flight_query_url) with
      | Raise e => (Raise e, mk_world (disk w) log1 (requests w ++ [flight_query_url]))
      | Ok flight_events =>
          let sent := (requests w ++ [flight_query_url]) ++ [checkin_query_url] in
          match batch_of (network checkin_query_url) with
          | Raise e => (Raise e, mk_world (disk w) log2 sent)
          | Ok checkin_events =>
              match update_stats flight_events checkin_events s with
              | Raise e => (Raise e, mk_world (disk w) log2 sent)
              | Ok s' =>
                  let s'' := set_last_updated (strftime now) s' in
                  (Ok tt,
                   mk_world (Document s'')
                            ((log2 ++ [(DEBUG, UpdatedStatistics s'')])
                               ++ [(INFO, ProcessingEnded)])
                            sent)
              end
          end
      end
  end.
Proof.
  unfold populate_stats, bind at 1 2. unfold logger at 1. simpl.
  rewrite read_existing_stats_loaded. simpl.
  destruct (loaded (disk w)) as [s|e]; [|reflexivity].
  unfold bind at 1. rewrite fetch_batch_of. simpl.
  change (mk_query_url (flight_schedules_url config) (last_updated s) (strftime now))
    with (query config FlightSchedules s now).
  destruct (batch_of (network (query config FlightSchedules s now))) as [flight_events|e];
    [|reflexivity].
  unfold bind at 1. rewrite fetch_batch_of. simpl.
  change (mk_query_url (passenger_checkins_url config) (last_updated s) (strftime now))
    with (query config PassengerCheckins s now).
  destruct (batch_of (network (query config PassengerCheckins s now))) as [checkin_events|e];
    [|reflexivity].
  unfold bind at 1. unfold lift at 1.
  destruct (update_stats flight_events checkin_events s) as [s'|e]; reflexivity.
Qed.

Lemma populate_stats_completes (config : app_config) (network : query_url -> reply)
      (now : datetime) (w : world) (s s' : stats) (flight_events checkin_events : list event) :
  loaded (disk w) = Ok s ->
  batch_of (network (query config FlightSchedules s now)) = Ok flight_events ->
  batch_of (network (query config PassengerCheckins s now)) = Ok checkin_events ->
  update_stats flight_events checkin_events s = Ok s' ->
  populate_stats config network now w =
  (Ok tt,
   mk_world (Document (set_last_updated (strftime now) s'))
            (((((log w ++ [(INFO, ProcessingStarted)])
                  ++ fetch_log FlightSchedules (network (query config FlightSchedules s now)))
                 ++ fetch_log PassengerCheckins (network (query config PassengerCheckins s now)))
                ++ [(DEBUG, UpdatedStatistics (set_last_updated (strftime now) s'))])
               ++ [(INFO, ProcessingEnded)])
            ((requests w ++ [query config FlightSchedules s now])
               ++ [query config PassengerCheckins s now])).
Proof.
  intros Hs Hf Hc Hu. rewrite populate_stats_unfold, Hs. cbv zeta.
  rewrite Hf, Hc, Hu. reflexivity.
Qed.

Lemma populate_stats_completed_inv (config : app_config) (network : query_url -> reply)
      (now : datetime) (w w' : world) :
  populate_stats config network now w = (Ok tt, w') ->
  exists s s' flight_events checkin_events,
    loaded (disk w) = Ok s /\
    batch_of (network (query config FlightSchedules s now)) = Ok flight_events /\
    batch_of (network (query config PassengerCheckins s now)) = Ok checkin_events /\
    update_stats flight_events checkin_events s = Ok s' /\
    disk w' = Document (set_last_updated (strftime now) s') /\
    requests w' = (requests w ++ [query config FlightSchedules s now])
                    ++ [query config PassengerCheckins s now].
Proof.
  rewrite populate_stats_unfold.
  destruct (loaded (disk w)) as [s|e]; [|discriminate]. cbv zeta.
  destruct (batch_of (network (query config FlightSchedules s now))) as [fe|e] eqn:Hf;
    [|discriminate].
  destruct (batch_of (network (query config PassengerCheckins s now))) as [ce|e] eqn:Hc;
    [|discriminate].
  destruct (update_stats fe ce s) as [s'|e] eqn:Hu; [|discriminate].
  intros [= <-]. exists s, s', fe, ce. auto 10.
Qed.


(** ** The load operation *)

(** C6, as stated, fails: with no stats file, [read_existing_stats]
    returns a document whose two maxima are 0, not an infinity. *)
Lemma read_existing_stats_default_not_all_sentinels :
  exists s : stats,
    read_existing_stats (mk_world NoFile [] []) = (Ok s, mk_world NoFile [] []) /\
    max_luggage_weight s = Fin 0 /\ max_flight_duration s = Fin 0 /\
    ~ all_sentinels s.
Proof.
  exists DEFAULT_STATS. repeat split.
  intros (_ & _ & [H|H] & _); discriminate H.
Qed.

(** C6, amended: when no stats file exists, [read_existing_stats] returns
    a document with both counters zero, the two minima at positive infinity,
    the two maxima at 0 and [last_updated] at 2000-01-01 00:00:00; when
    the file holds a document it returns that document.  The world is left
    as it was. *)
Theorem read_existing_stats_default_or_persisted
        (lg : list (level * message)) (rq : list query_url) :
  (exists s : stats,
     read_existing_stats (mk_world NoFile lg rq) = (Ok s, mk_world NoFile lg rq) /\
     num_flight_schedules s = 0 /\ num_passenger_checkins s = 0 /\
     max_luggage_weight s = Fin 0 /\ min_luggage_weight s = PosInf /\
     max_flight_duration s = Fin 0 /\ min_flight_duration s = PosInf /\
     last_updated s = epoch_2000) /\
  (forall s : stats,
     read_existing_stats (mk_world (Document s) lg rq) = (Ok s, mk_world (Document s) lg rq)).
Proof.
  split.
  - exists DEFAULT_STATS. repeat split.
  - intros s. reflexivity.
Qed.

(** ** The fold *)

(** C5, as stated, fails: a measurement that is present and is
    not-a-number never wins a comparison, so that after it has been folded
    into the defaults the minimum is still positive infinity and the
    maximum still 0. *)
Lemma nan_measurement_breaks_order :
  measured "flight_duration" [Sample.flight_nan] /\
  update_stats [Sample.flight_nan] [] DEFAULT_STATS
  = Ok (mk_stats 1 0 (Fin 0) PosInf (Fin 0) PosInf epoch_2000) /\
  gt (minimum FlightSchedules (mk_stats 1 0 (Fin 0) PosInf (Fin 0) PosInf epoch_2000))
     (maximum FlightSchedules (mk_stats 1 0 (Fin 0) PosInf (Fin 0) PosInf epoch_2000))
  = true /\
  ~ le (minimum FlightSchedules (mk_stats 1 0 (Fin 0) PosInf (Fin 0) PosInf epoch_2000))
       (maximum FlightSchedules (mk_stats 1 0 (Fin 0) PosInf (Fin 0) PosInf epoch_2000)).
Proof.
  split.
  { exists Sample.flight_nan, NaN. split; [left; reflexivity | vm_compute; reflexivity]. }
  split; [vm_compute; reflexivity|]. split; [reflexivity|].
  unfold le. simpl. discriminate.
Qed.

(** C5, amended: for every category whose stored extrema are numbers, as
    they are from the defaults on, once an event whose measurement is a
    number (not not-a-number) has been folded in, the minimum is at most
    the maximum after the fold; and an order that holds before a fold holds
    after it, so it holds after every later batch as well. *)
Theorem minimum_le_maximum (flight_events checkin_events : list event) (s s' : stats)
        (c : category) :
  update_stats flight_events checkin_events s = Ok s' ->
  (measured_number (measurement c) (batch c (flight_events, checkin_events)) /\
   maximum c s <> NaN /\ minimum c s <> NaN)
  \/ le (minimum c s) (maximum c s) ->
  le (minimum c s') (maximum c s').
Proof.
  intros Hu Hm.
  destruct (update_stats_category _ _ _ _ Hu c) as [_ Hfold].
  destruct Hm as [((ev & d & Hin & Hd & Hnn) & Hmax & Hmin)|Hle].
  - destruct (fold_extrema_bounds _ _ _ _ Hfold ev d Hin Hd Hnn) as [H1 H2].
    simpl in H1, H2. eapply le_trans; [apply H1, Hmin | apply H2, Hmax].
  - apply (fold_extrema_keeps_order _ _ _ _ Hfold). exact Hle.
Qed.

Lemma minimum_le_maximum_witness :
  update_stats [Sample.flight_nan; Sample.flight120; Sample.flight90] [] DEFAULT_STATS
  = Ok (mk_stats 3 0 (Fin 0) PosInf (Fin 120) (Fin 90) epoch_2000) /\
  measured_number "flight_duration" [Sample.flight_nan; Sample.flight120; Sample.flight90] /\
  le (Fin 90) (Fin 120).
Proof.
  assert (Hu : update_stats [Sample.flight_nan; Sample.flight120; Sample.flight90] []
                            DEFAULT_STATS
               = Ok (mk_stats 3 0 (Fin 0) PosInf (Fin 120) (Fin 90) epoch_2000))
    by (vm_compute; reflexivity).
  assert (Hm : measured_number "flight_duration"
                               [Sample.flight_nan; Sample.flight120; Sample.flight90]).
  { exists Sample.flight120, (Fin 120).
    split; [right; left; reflexivity|]. split; [vm_compute; reflexivity | discriminate]. }
  split; [exact Hu|]. split; [exact Hm|].
  refine (minimum_le_maximum _ _ _ _ FlightSchedules Hu (or_introl (conj Hm (conj _ _))));
    discriminate.
Defined.

(** C10: folding the same two batches a second time leaves the four extrema
    exactly as the first fold left them; only the counters change. *)
Theorem refolding_keeps_extrema (flight_events checkin_events : list event) (s s1 : stats) :
  update_stats flight_events checkin_events s = Ok s1 ->
  exists s2 : stats,
    update_stats flight_events checkin_events s1 = Ok s2 /\
    extrema s2 = extrema s1 /\
    last_updated s2 = last_updated s1 /\
    num_flight_schedules s2 = num_flight_schedules s1 + Z.of_nat (length flight_events) /\
    num_passenger_checkins s2 = num_passenger_checkins s1 + Z.of_nat (length checkin_events).
Proof.
  intros Hu. apply update_stats_fields in Hu.
  destruct Hu as (mxf & mnf & mxl & mnl & Hf & Hl & ->).
  assert (Hf' : fold_extrema "flight_duration" flight_events (mxf, mnf) = Ok (mxf, mnf)).
  { apply fold_extrema_absorb.
    - apply (fold_extrema_numeric _ _ (max_flight_duration s, min_flight_duration s)). eauto.
    - intros ev d Hin Hd. apply (fold_extrema_beaten _ _ _ _ Hf ev d Hin Hd). }
  assert (Hl' : fold_extrema "luggage_weight" checkin_events (mxl, mnl) = Ok (mxl, mnl)).
  { apply fold_extrema_absorb.
    - apply (fold_extrema_numeric _ _ (max_luggage_weight s, min_luggage_weight s)). eauto.
    - intros ev d Hin Hd. apply (fold_extrema_beaten _ _ _ _ Hl ev d Hin Hd). }
  eexists. split.
  - apply update_stats_fields. exists mxf, mnf, mxl, mnl. simpl.
    split; [exact Hf'|]. split; [exact Hl'|]. reflexivity.
  - simpl. repeat split.
Qed.

Lemma refolding_keeps_extrema_witness :
  update_stats [Sample.flight120; Sample.flight90] [Sample.checkin42] DEFAULT_STATS
  = Ok (mk_stats 2 1 (Fin 42) (Fin 42) (Fin 120) (Fin 90) epoch_2000) /\
  exists s2 : stats,
    update_stats [Sample.flight120; Sample.flight90] [Sample.checkin42]
                 (mk_stats 2 1 (Fin 42) (Fin 42) (Fin 120) (Fin 90) epoch_2000) = Ok s2 /\
    extrema s2 = (Fin 42, Fin 42, Fin 120, Fin 90) /\
    last_updated s2 = epoch_2000 /\
    num_flight_schedules s2 = 2 + 2 /\
    num_passenger_checkins s2 = 1 + 1.
Proof.
  assert (Hu : update_stats [Sample.flight120; Sample.flight90] [Sample.checkin42] DEFAULT_STATS
               = Ok (mk_stats 2 1 (Fin 42) (Fin 42) (Fin 120) (Fin 90) epoch_2000))
    by (vm_compute; reflexivity).
  split; [exact Hu|].
  exact (refolding_keeps_extrema _ _ _ _ Hu).
Defined.

(** ** Replies and batches *)

Lemma batch_of_not_200 (status_code : Z) (content : body) :
  status_code <> 200 -> batch_of (Response status_code content) = Ok [].
Proof.
  intros H. simpl. destruct (Z.eqb_spec status_code 200); [contradiction|reflexivity].
Qed.

Lemma fetch_log_not_200 (c : category) (status_code : Z) (content : body) :
  status_code <> 200 ->
  fetch_log c (Response status_code content) = [(ERROR, ErrorFetching c status_code)].
Proof.
  intros H. simpl. destruct (Z.eqb_spec status_code 200); [contradiction|reflexivity].
Qed.

Lemma handled_batch (c : category) (r : reply) :
  handled c r ->
  exists events : list event,
    batch_of r = Ok events /\ numeric_batch (measurement c) events = true.
Proof.
  destruct r as [|status_code content]; simpl; [contradiction|].
  destruct (Z.eqb_spec status_code 200) as [->|Hne].
  - intros [H|(events & -> & Hnum)]; [contradiction|]. eauto.
  - intros _. exists []. auto.
Qed.

(** A cycle whose two replies are handled runs to its end. *)
Lemma populate_stats_handled (config : app_config) (network : query_url -> reply)
      (now : datetime) (w : world) (s : stats) :
  loaded (disk w) = Ok s ->
  handled FlightSchedules (network (query config FlightSchedules s now)) ->
  handled PassengerCheckins (network (query config PassengerCheckins s now)) ->
  exists (flight_events checkin_events : list event) (s' : stats),
    batch_of (network (query config FlightSchedules s now)) = Ok flight_events /\
    batch_of (network (query config PassengerCheckins s now)) = Ok checkin_events /\
    update_stats flight_events checkin_events s = Ok s' /\
    populate_stats config network now w =
    (Ok tt,
     mk_world (Document (set_last_updated (strftime now) s'))
              (((((log w ++ [(INFO, ProcessingStarted)])
                    ++ fetch_log FlightSchedules (network (query config FlightSchedules s now)))
                   ++ fetch_log PassengerCheckins
                        (network (query config PassengerCheckins s now)))
                  ++ [(DEBUG, UpdatedStatistics (set_last_updated (strftime now) s'))])
                 ++ [(INFO, ProcessingEnded)])
              ((requests w ++ [query config FlightSchedules s now])
                 ++ [query config PassengerCheckins s now])).
Proof.
  intros Hs Hf Hc.
  apply handled_batch in Hf. destruct Hf as (fe & Hf & Hfn).
  apply handled_batch in Hc. destruct Hc as (ce & Hc & Hcn).
  destruct (update_stats_total fe ce s Hfn Hcn) as [s' Hu].
  exists fe, ce, s'. repeat (split; [assumption|]).
  apply (populate_stats_completes config network now w s s' fe ce); assumption.
Qed.

Lemma set_last_updated_fields (t : Z) (s : stats) (c : category) :
  counter c (set_last_updated t s) = counter c s /\
  maximum c (set_last_updated t s) = maximum c s /\
  minimum c (set_last_updated t s) = minimum c s.
Proof. destruct c; simpl; auto. Qed.

(** ** The empty window *)

(** C8: a cycle in which both fetches return an empty batch leaves every
    field of the starting document as it was, except [last_updated]. *)
Theorem empty_window_changes_only_last_updated
        (config : app_config) (network : query_url -> reply) (now : datetime)
        (w : world) (s : stats) :
  loaded (disk w) = Ok s ->
  network (query config FlightSchedules s now) = Response 200 (Json []) ->
  network (query config PassengerCheckins s now) = Response 200 (Json []) ->
  exists w' : world,
    populate_stats config network now w = (Ok tt, w') /\
    disk w' = Document (mk_stats (num_flight_schedules s) (num_passenger_checkins s)
                                 (max_luggage_weight s) (min_luggage_weight s)
                                 (max_flight_duration s) (min_flight_duration s)
                                 (strftime now)).
Proof.
  intros Hs Hf Hc.
  assert (Hu : update_stats [] [] s = Ok s).
  { unfold update_stats. simpl. rewrite !Z.add_0_r. destruct s; reflexivity. }
  eexists. split.
  - apply (populate_stats_completes config network now w s s [] []); auto.
    + rewrite Hf. reflexivity.
    + rewrite Hc. reflexivity.
  - reflexivity.
Qed.

Lemma empty_window_changes_only_last_updated_witness :
  exists w' : world,
    populate_stats Sample.config Sample.quiet Sample.now Sample.stored = (Ok tt, w') /\
    disk w' = Document (mk_stats 2 1 (Fin 42) (Fin 42) (Fin 120) (Fin 90) 1700000000).
Proof.
  apply (empty_window_changes_only_last_updated
           Sample.config Sample.quiet Sample.now Sample.stored Sample.seen);
    reflexivity.
Defined.

(** ** Failing fetches *)

(** C1, as stated, fails: when the flight query ends in a transport-level
    failure and the check-in query would return a batch, the cycle is
    aborted; the check-in query is not even sent and nothing is written. *)
Lemma transport_failure_is_not_isolated :
  Sample.flights_unreachable (query Sample.config FlightSchedules DEFAULT_STATS Sample.now)
  = TransportFailure /\
  Sample.flights_unreachable (query Sample.config PassengerCheckins DEFAULT_STATS Sample.now)
  = Response 200 (Json [Sample.checkin42]) /\
  populate_stats Sample.config Sample.flights_unreachable Sample.now Sample.fresh
  = (Raise TransportError,
     mk_world NoFile [(INFO, ProcessingStarted)]
              [query Sample.config FlightSchedules DEFAULT_STATS Sample.now]) /\
  ~ isolated Sample.config Sample.flights_unreachable Sample.now Sample.fresh
             FlightSchedules [Sample.checkin42].
Proof.
  assert (H : populate_stats Sample.config Sample.flights_unreachable Sample.now Sample.fresh
              = (Raise TransportError,
                 mk_world NoFile [(INFO, ProcessingStarted)]
                          [query Sample.config FlightSchedules DEFAULT_STATS Sample.now]))
    by (vm_compute; reflexivity).
  split; [reflexivity|]. split; [reflexivity|]. split; [exact H|].
  intros (s & s' & w' & _ & Hrun & _). rewrite H in Hrun. discriminate Hrun.
Qed.

(** C1, amended: when one category's fetch returns an HTTP response whose
    status is not 200 and the other category's fetch returns status 200 with
    a batch of events (measurements numeric or absent), the cycle sends both
    queries and runs to its end; the failing category's counter and extrema
    are unchanged, and the other category's counter and extrema are updated
    from its own former values and its batch alone. *)
Theorem non_200_failure_is_isolated
        (config : app_config) (network : query_url -> reply) (now : datetime)
        (w : world) (s : stats) (failing : category)
        (status_code : Z) (content : body) (events : list event) :
  loaded (disk w) = Ok s ->
  network (query config failing s now) = Response status_code content ->
  status_code <> 200 ->
  network (query config (other failing) s now) = Response 200 (Json events) ->
  numeric_batch (measurement (other failing)) events = true ->
  isolated config network now w failing events.
Proof.
  intros Hs Hfail Hne Hok Hnum.
  assert (Hbf : batch_of (network (query config failing s now)) = Ok [])
    by (rewrite Hfail; apply batch_of_not_200, Hne).
  assert (Hbo : batch_of (network (query config (other failing) s now)) = Ok events)
    by (rewrite Hok; reflexivity).
  destruct failing; simpl in Hbf, Hbo, Hnum.
  - destruct (update_stats_total [] events s eq_refl Hnum) as [s' Hu].
    exists s, (set_last_updated (strftime now) s'). eexists.
    split; [exact Hs|].
    split; [apply (populate_stats_completes _ _ _ _ _ _ _ _ Hs Hbf Hbo Hu)|].
    split; [reflexivity|].
    split; [simpl; rewrite <- app_assoc; reflexivity|].
    destruct (update_stats_category _ _ _ _ Hu FlightSchedules) as [Hcf Hff].
    destruct (update_stats_category _ _ _ _ Hu PassengerCheckins) as [Hco Hfo].
    simpl in *. injection Hff as <- <-. rewrite Hcf, Hco, Z.add_0_r. auto 10.
  - destruct (update_stats_total events [] s Hnum eq_refl) as [s' Hu].
    exists s, (set_last_updated (strftime now) s'). eexists.
    split; [exact Hs|].
    split; [apply (populate_stats_completes _ _ _ _ _ _ _ _ Hs Hbo Hbf Hu)|].
    split; [reflexivity|].
    split; [simpl; rewrite <- app_assoc; reflexivity|].
    destruct (update_stats_category _ _ _ _ Hu FlightSchedules) as [Hco Hfo].
    destruct (update_stats_category _ _ _ _ Hu PassengerCheckins) as [Hcf Hff].
    simpl in *. injection Hff as <- <-. rewrite Hcf, Hco, Z.add_0_r. auto 10.
Qed.

Lemma non_200_failure_is_isolated_witness :
  isolated Sample.config Sample.checkins_failing Sample.now Sample.fresh
           PassengerCheckins [Sample.flight120; Sample.flight90].
Proof.
  apply (non_200_failure_is_isolated
           Sample.config Sample.checkins_failing Sample.now Sample.fresh DEFAULT_STATS
           PassengerCheckins 500 NotJson [Sample.flight120; Sample.flight90]);
    first [reflexivity | discriminate | vm_compute; reflexivity].
Defined.

(** C2, as stated, fails: a transport-level failure of a fetch, and a
    body of a 200 response that cannot be decoded, both make
    [populate_stats] raise; nothing is written. *)
Lemma populate_stats_raises :
  Sample.checkins_unreachable
    (query Sample.config PassengerCheckins DEFAULT_STATS Sample.now) = TransportFailure /\
  populate_stats Sample.config Sample.checkins_unreachable Sample.now Sample.fresh
  = (Raise TransportError,
     mk_world NoFile [(INFO, ProcessingStarted); (INFO, Received FlightSchedules 0)]
              [query Sample.config FlightSchedules DEFAULT_STATS Sample.now;
               query Sample.config PassengerCheckins DEFAULT_STATS Sample.now]) /\
  ~ completes Sample.config Sample.checkins_unreachable Sample.now Sample.fresh /\
  Sample.flights_garbled
    (query Sample.config FlightSchedules DEFAULT_STATS Sample.now) = Response 200 NotJson /\
  populate_stats Sample.config Sample.flights_garbled Sample.now Sample.fresh
  = (Raise JSONDecodeError,
     mk_world NoFile [(INFO, ProcessingStarted)]
              [query Sample.config FlightSchedules DEFAULT_STATS Sample.now]) /\
  ~ completes Sample.config Sample.flights_garbled Sample.now Sample.fresh.
Proof.
  assert (H1 : populate_stats Sample.config Sample.checkins_unreachable Sample.now Sample.fresh
               = (Raise TransportError,
                  mk_world NoFile
                           [(INFO, ProcessingStarted); (INFO, Received FlightSchedules 0)]
                           [query Sample.config FlightSchedules DEFAULT_STATS Sample.now;
                            query Sample.config PassengerCheckins DEFAULT_STATS Sample.now]))
    by (vm_compute; reflexivity).
  assert (H2 : populate_stats Sample.config Sample.flights_garbled Sample.now Sample.fresh
               = (Raise JSONDecodeError,
                  mk_world NoFile [(INFO, ProcessingStarted)]
                           [query Sample.config FlightSchedules DEFAULT_STATS Sample.now]))
    by (vm_compute; reflexivity).
  split; [reflexivity|]. split; [exact H1|]. split.
  { intros (w' & s' & Hrun & _). rewrite H1 in Hrun. discriminate Hrun. }
  split; [reflexivity|]. split; [exact H2|].
  intros (w' & s' & Hrun & _). rewrite H2 in Hrun. discriminate Hrun.
Qed.

(** C2, amended: when the stats file is absent or holds a document and
    each of the two fetches returns an HTTP response that either has a
    status other than 200, whatever its body, or has status 200 and a body
    that decodes to a batch with numeric measurements, [populate_stats] does
    not raise: it logs an error for every response whose status is not 200,
    takes the empty batch for it, runs to its end and persists the updated
    document, [last_updated] included. *)
Theorem http_failures_are_absorbed
        (config : app_config) (network : query_url -> reply) (now : datetime)
        (w : world) (s : stats) :
  loaded (disk w) = Ok s ->
  handled FlightSchedules (network (query config FlightSchedules s now)) ->
  handled PassengerCheckins (network (query config PassengerCheckins s now)) ->
  exists (w' : world) (s' : stats),
    populate_stats config network now w = (Ok tt, w') /\
    disk w' = Document s' /\
    last_updated s' = strftime now /\
    forall (c : category) (status_code : Z) (content : body),
      network (query config c s now) = Response status_code content ->
      status_code <> 200 ->
      In (ERROR, ErrorFetching c status_code) (log w') /\
      counter c s' = counter c s /\ maximum c s' = maximum c s /\ minimum c s' = minimum c s.
Proof.
  intros Hs Hf Hc.
  destruct (populate_stats_handled config network now w s Hs Hf Hc)
    as (fe & ce & s' & Hbf & Hbc & Hu & Hrun).
  eexists. exists (set_last_updated (strftime now) s').
  split; [exact Hrun|]. split; [reflexivity|]. split; [reflexivity|].
  intros c status_code content Hr Hne.
  assert (Hb : batch c (fe, ce) = []).
  { destruct c; simpl; [rewrite Hr in Hbf | rewrite Hr in Hbc];
      rewrite (batch_of_not_200 _ _ Hne) in *; congruence. }
  split.
  - simpl. rewrite !in_app_iff.
    destruct c; rewrite Hr, (fetch_log_not_200 _ _ _ Hne); simpl; auto 10.
  - destruct (set_last_updated_fields (strftime now) s' c) as (-> & -> & ->).
    destruct (update_stats_category _ _ _ _ Hu c) as [Hcnt Hfold].
    rewrite Hb in Hcnt, Hfold. simpl in Hcnt, Hfold.
    injection Hfold as <- <-. rewrite Hcnt, Z.add_0_r. auto.
Qed.

Lemma http_failures_are_absorbed_witness :
  exists (w' : world) (s' : stats),
    populate_stats Sample.config Sample.both_failing Sample.now Sample.stored = (Ok tt, w') /\
    disk w' = Document s' /\
    last_updated s' = strftime Sample.now /\
    forall (c : category) (status_code : Z) (content : body),
      Sample.both_failing (query Sample.config c Sample.seen Sample.now)
      = Response status_code content ->
      status_code <> 200 ->
      In (ERROR, ErrorFetching c status_code) (log w') /\
      counter c s' = counter c Sample.seen /\
      maximum c s' = maximum c Sample.seen /\
      minimum c s' = minimum c Sample.seen.
Proof.
  apply (http_failures_are_absorbed
           Sample.config Sample.both_failing Sample.now Sample.stored Sample.seen).
  - reflexivity.
  - left. discriminate.
  - left. discriminate.
Defined.

(** ** Successful fetches *)

(** C7, as stated, fails: a response of status 201 with a decodable body
    is not taken as a success; [fetch] logs an error and hands over the
    empty batch, and the decoded batch is not folded. *)
Lemma status_201_batch_is_not_folded :
  Sample.flights_created (query Sample.config FlightSchedules DEFAULT_STATS Sample.now)
  = Response 201 (Json [Sample.flight120]) /\
  fetch Sample.flights_created FlightSchedules
        (query Sample.config FlightSchedules DEFAULT_STATS Sample.now) Sample.fresh
  = (Ok [],
     mk_world NoFile [(ERROR, ErrorFetching FlightSchedules 201)]
              [query Sample.config FlightSchedules DEFAULT_STATS Sample.now]) /\
  disk (snd (populate_stats Sample.config Sample.flights_created Sample.now Sample.fresh))
  = Document (set_last_updated (strftime Sample.now) DEFAULT_STATS) /\
  ~ batch_folded Sample.config Sample.flights_created Sample.now Sample.fresh
                 FlightSchedules [Sample.flight120].
Proof.
  split; [reflexivity|]. split; [vm_compute; reflexivity|].
  split; [vm_compute; reflexivity|].
  intros (s & s' & w' & Hs & Hrun & Hd & Hcnt & _).
  injection Hs as <-.
  assert (H : populate_stats Sample.config Sample.flights_created Sample.now Sample.fresh
              = (Ok tt,
                 snd (populate_stats Sample.config Sample.flights_created
                                     Sample.now Sample.fresh)))
    by (vm_compute; reflexivity).
  rewrite H in Hrun. injection Hrun as <-.
  vm_compute in Hd. injection Hd as <-.
  vm_compute in Hcnt. discriminate Hcnt.
Qed.

(** C7, amended: when a fetch returns an HTTP response of status 200 whose
    body decodes to a batch (measurements numeric or absent), [fetch] hands
    over that batch, and, the other fetch being one the cycle copes with,
    that batch is the one folded into the persisted counter and extrema of
    its category. *)
Theorem status_200_batch_is_folded
        (config : app_config) (network : query_url -> reply) (now : datetime)
        (w : world) (s : stats) (c : category) (events : list event) :
  loaded (disk w) = Ok s ->
  network (query config c s now) = Response 200 (Json events) ->
  numeric_batch (measurement c) events = true ->
  handled (other c) (network (query config (other c) s now)) ->
  (forall w0 : world, fst (fetch network c (query config c s now) w0) = Ok events) /\
  batch_folded config network now w c events.
Proof.
  intros Hs Hr Hnum Ho. split.
  - intros w0. rewrite fetch_batch_of, Hr. reflexivity.
  - assert (Hc : handled c (network (query config c s now))).
    { rewrite Hr. right. exists events. auto. }
    assert (Hrun : exists fe ce s',
               batch_of (network (query config FlightSchedules s now)) = Ok fe /\
               batch_of (network (query config PassengerCheckins s now)) = Ok ce /\
               update_stats fe ce s = Ok s' /\
               exists w', populate_stats config network now w = (Ok tt, w') /\
                          disk w' = Document (set_last_updated (strftime now) s')).
    { destruct c; simpl in Ho.
      - destruct (populate_stats_handled config network now w s Hs Hc Ho)
          as (fe & ce & s' & Hbf & Hbc & Hu & Hrun).
        exists fe, ce, s'. do 3 (split; [assumption|]).
        eexists. split; [exact Hrun|reflexivity].
      - destruct (populate_stats_handled config network now w s Hs Ho Hc)
          as (fe & ce & s' & Hbf & Hbc & Hu & Hrun).
        exists fe, ce, s'. do 3 (split; [assumption|]).
        eexists. split; [exact Hrun|reflexivity]. }
    destruct Hrun as (fe & ce & s' & Hbf & Hbc & Hu & w' & Hrun & Hd).
    exists s, (set_last_updated (strftime now) s'), w'.
    split; [exact Hs|]. split; [exact Hrun|]. split; [exact Hd|].
    destruct (set_last_updated_fields (strftime now) s' c) as (-> & -> & ->).
    assert (Hb : batch c (fe, ce) = events).
    { destruct c; simpl; [rewrite Hr in Hbf | rewrite Hr in Hbc]; simpl in *; congruence. }
    destruct (update_stats_category _ _ _ _ Hu c) as [Hcnt Hfold].
    rewrite Hb in Hcnt, Hfold. auto.
Qed.

Lemma status_200_batch_is_folded_witness :
  (forall w0 : world,
     fst (fetch Sample.checkins_failing FlightSchedules
                (query Sample.config FlightSchedules DEFAULT_STATS Sample.now) w0)
     = Ok [Sample.flight120; Sample.flight90]) /\
  batch_folded Sample.config Sample.checkins_failing Sample.now Sample.fresh
               FlightSchedules [Sample.flight120; Sample.flight90].
Proof.
  apply (status_200_batch_is_folded
           Sample.config Sample.checkins_failing Sample.now Sample.fresh DEFAULT_STATS
           FlightSchedules [Sample.flight120; Sample.flight90]).
  - reflexivity.
  - reflexivity.
  - vm_compute. reflexivity.
  - left. discriminate.
Defined.

(** ** Jobs of the scheduler *)

Lemma loaded_persisted (f : file) (s : stats) : loaded f = Ok s -> persisted f = s.
Proof. destruct f; simpl; congruence. Qed.

(** A job either runs to its end and writes the folded document, or is
    ended by an exception and leaves the file as it was. *)
Lemma run_job_cases (config : app_config) (w : world) (t : tick) :
  (exists (s s' : stats) (flight_events checkin_events : list event),
     loaded (disk w) = Ok s /\
     update_stats flight_events checkin_events s = Ok s' /\
     folded config w t = (flight_events, checkin_events) /\
     disk (run_job config w t) = Document (set_last_updated (strftime (clock t)) s'))
  \/ (folded config w t = ([], []) /\ disk (run_job config w t) = disk w).
Proof.
  unfold run_job, folded. rewrite populate_stats_unfold.
  destruct (loaded (disk w)) as [s|e]; [|right; auto]. cbv zeta.
  destruct (batch_of (net t (query config FlightSchedules s (clock t)))) as [fe|e];
    [|right; auto].
  destruct (batch_of (net t (query config PassengerCheckins s (clock t)))) as [ce|e];
    [|right; auto].
  destruct (update_stats fe ce s) as [s'|e] eqn:Hu; [|right; auto].
  left. exists s, s', fe, ce. auto.
Qed.

Lemma run_job_counter (config : app_config) (w : world) (t : tick) (c : category) :
  counter c (persisted (disk (run_job config w t)))
  = counter c (persisted (disk w)) + Z.of_nat (length (batch c (folded config w t))).
Proof.
  destruct (run_job_cases config w t)
    as [(s & s' & fe & ce & Hs & Hu & -> & ->)|[-> ->]].
  - rewrite (loaded_persisted _ _ Hs). simpl persisted.
    destruct (set_last_updated_fields (strftime (clock t)) s' c) as (-> & _).
    apply (update_stats_category _ _ _ _ Hu c).
  - destruct c; simpl; lia.
Qed.

Lemma folded_count_nonneg (config : app_config) (c : category) (ticks : list tick) (w : world) :
  0 <= folded_count config c ticks w.
Proof.
  revert w. induction ticks as [|t rest IH]; intros w; simpl.
  - lia.
  - specialize (IH (run_job config w t)). lia.
Qed.

(** A fetch answered with a status other than 200 has nothing folded. *)
Lemma folded_not_200 (config : app_config) (w : world) (t : tick) (c : category)
      (s : stats) (status_code : Z) (content : body) :
  loaded (disk w) = Ok s ->
  net t (query config c s (clock t)) = Response status_code content ->
  status_code <> 200 ->
  batch c (folded config w t) = [].
Proof.
  intros Hs Hr Hne. unfold folded. rewrite Hs.
  destruct c; rewrite Hr, (batch_of_not_200 _ _ Hne).
  - destruct (batch_of _) as [ce|e]; [|reflexivity].
    destruct (update_stats [] ce s); reflexivity.
  - destruct (batch_of _) as [fe|e]; [|reflexivity].
    destruct (update_stats fe [] s); reflexivity.
Qed.

(** A job that runs to its end folds the two batches of its fetches. *)
Lemma folded_completed (config : app_config) (w w' : world) (t : tick) :
  populate_stats config (net t) (clock t) w = (Ok tt, w') ->
  exists (s : stats) (flight_events checkin_events : list event),
    loaded (disk w) = Ok s /\
    batch_of (net t (query config FlightSchedules s (clock t))) = Ok flight_events /\
    batch_of (net t (query config PassengerCheckins s (clock t))) = Ok checkin_events /\
    folded config w t = (flight_events, checkin_events).
Proof.
  intros Hrun. apply populate_stats_completed_inv in Hrun.
  destruct Hrun as (s & s' & fe & ce & Hs & Hf & Hc & Hu & _).
  exists s, fe, ce. unfold folded. rewrite Hs, Hf, Hc, Hu. auto.
Qed.

(** ** Counters *)

(** C3: over every sequence of cycles, each counter of the persisted
    document equals its initial value plus the number of events of its
    category folded in by the cycles, and it never decreases; a fetch that
    fails with a status other than 200 has no event folded. *)
Theorem counters_accumulate (config : app_config) (ticks : list tick) (w : world)
        (c : category) :
  counter c (persisted (disk (scheduler config ticks w)))
  = counter c (persisted (disk w)) + folded_count config c ticks w
  /\ counter c (persisted (disk w)) <= counter c (persisted (disk (scheduler config ticks w)))
  /\ forall (t : tick) (s : stats) (status_code : Z) (content : body),
       loaded (disk w) = Ok s ->
       net t (query config c s (clock t)) = Response status_code content ->
       status_code <> 200 ->
       folded_count config c [t] w = 0.
Proof.
  assert (H : counter c (persisted (disk (scheduler config ticks w)))
              = counter c (persisted (disk w)) + folded_count config c ticks w).
  { revert w. induction ticks as [|t rest IH]; intros w; simpl.
    - lia.
    - unfold scheduler in *. rewrite IH, run_job_counter. lia. }
  split; [exact H|]. split.
  - rewrite H. pose proof (folded_count_nonneg config c ticks w). lia.
  - intros t s status_code content Hs Hr Hne. simpl.
    rewrite (folded_not_200 config w t c s status_code content Hs Hr Hne). reflexivity.
Qed.

Lemma counters_accumulate_witness :
  counter FlightSchedules (persisted (disk (scheduler Sample.config Sample.two_ticks Sample.fresh)))
  = 0 + 2 /\
  counter PassengerCheckins
          (persisted (disk (scheduler Sample.config Sample.two_ticks Sample.fresh)))
  = 0 + 0 /\
  folded_count Sample.config PassengerCheckins [mk_tick Sample.now Sample.checkins_failing]
               Sample.fresh = 0.
Proof.
  destruct (counters_accumulate Sample.config Sample.two_ticks Sample.fresh FlightSchedules)
    as (Hf & _ & _).
  destruct (counters_accumulate Sample.config Sample.two_ticks Sample.fresh PassengerCheckins)
    as (Hc & _ & Hz).
  split; [exact Hf|]. split; [exact Hc|].
  apply (Hz (mk_tick Sample.now Sample.checkins_failing) DEFAULT_STATS 500 NotJson);
    first [reflexivity | discriminate].
Defined.

(** ** The checkpoint *)




(** ** The save operation *)

Lemma write_stats_run_steps (s : stats) (w : world) :
  write_stats s w = (Ok tt, run_steps (write_stats_steps s) w).
Proof. reflexivity. Qed.

(** C9, as stated, fails: a reader that runs between the opening of the
    file and the dump finds the file emptied; it gets neither the prior
    document nor the new one, [json.load] raises. *)
Lemma write_stats_is_not_atomic :
  disk Sample.stored = Document Sample.seen /\
  observed 1 (set_last_updated 1700000000 Sample.seen) Sample.stored = Raise JSONDecodeError /\
  fst (get_stats (run_steps (firstn 1 (write_stats_steps
                                         (set_last_updated 1700000000 Sample.seen)))
                            Sample.stored))
  = Raise JSONDecodeError /\
  ~ atomic_save Sample.seen (set_last_updated 1700000000 Sample.seen) Sample.stored.
Proof.
  split; [reflexivity|]. split; [reflexivity|]. split; [reflexivity|].
  intros H. destruct (H 1%nat) as [H1|H1]; discriminate H1.
Qed.

(** C9, amended: every save replaces the whole persisted document: once
    [write_stats] has returned, the file holds the new document, whatever
    it held before, and a load returns it.  The save is not atomic: a
    concurrent reader gets what the file held before the save, or the new
    document, or, between the opening of the file and the dump, a decoding
    error on the emptied file; it never gets a mix of the two documents. *)
Theorem write_stats_replaces_document (s : stats) (w : world) :
  write_stats s w = (Ok tt, mk_world (Document s) (log w) (requests w)) /\
  fst (read_existing_stats (snd (write_stats s w))) = Ok s /\
  observed 0 s w = loaded (disk w) /\
  observed 1 s w = Raise JSONDecodeError /\
  forall k : nat, (2 <= k)%nat -> observed k s w = Ok s.
Proof.
  split; [reflexivity|]. split; [reflexivity|].
  split; [unfold observed; simpl; rewrite read_existing_stats_loaded; reflexivity|].
  split; [reflexivity|].
  intros [|[|k]] Hk; [lia|lia|].
  unfold observed, write_stats_steps. simpl. rewrite firstn_nil. reflexivity.
Qed.

Lemma write_stats_replaces_document_witness :
  write_stats DEFAULT_STATS Sample.stored
  = (Ok tt, mk_world (Document DEFAULT_STATS) [] []) /\
  fst (read_existing_stats (snd (write_stats DEFAULT_STATS Sample.stored))) = Ok DEFAULT_STATS /\
  observed 0 DEFAULT_STATS Sample.stored = Ok Sample.seen /\
  observed 1 DEFAULT_STATS Sample.stored = Raise JSONDecodeError /\
  observed 2 DEFAULT_STATS Sample.stored = Ok DEFAULT_STATS.
Proof.
  destruct (write_stats_replaces_document DEFAULT_STATS Sample.stored)
    as (H1 & H2 & H3 & H4 & H5).
  split; [exact H1|]. split; [exact H2|]. split; [exact H3|]. split; [exact H4|].
  apply H5. apply le_n.
Defined.

(** * Further properties *)

(** ** More on one loop *)

Lemma fold_extrema_app (key : string) (events1 events2 : list event) (acc : number * number) :
  fold_extrema key (events1 ++ events2) acc =
  match fold_extrema key events1 acc with
  | Ok acc1 => fold_extrema key events2 acc1
  | Raise e => Raise e
  end.
Proof.
  revert acc. induction events1 as [|ev rest IH]; intros acc; simpl.
  - reflexivity.
  - destruct (ev !! key) as [[|d|t]|]; auto.
Qed.

(** A loop either returns, on a numeric batch, or raises [TypeError]. *)
Lemma fold_extrema_result (key : string) (events : list event) (acc : number * number) :
  (numeric_batch key events = true /\ exists acc', fold_extrema key events acc = Ok acc')
  \/ (numeric_batch key events = false /\ fold_extrema key events acc = Raise TypeError).
Proof.
  revert acc. induction events as [|ev rest IH]; intros acc; simpl.
  - left. eauto.
  - destruct (ev !! key) as [[|d|t]|]; simpl; auto.
Qed.

(** The new maximum is the old one or a measurement of the batch, and so
    is the new minimum. *)
Lemma fold_extrema_attained (key : string) (events : list event) (acc acc' : number * number) :
  fold_extrema key events acc = Ok acc' ->
  (fst acc' = fst acc \/
   exists ev : event, In ev events /\ ev !! key = Some (JNum (fst acc'))) /\
  (snd acc' = snd acc \/
   exists ev : event, In ev events /\ ev !! key = Some (JNum (snd acc'))).
Proof.
  revert acc. induction events as [|ev rest IH]; intros acc; simpl.
  - intros [= <-]. auto.
  - destruct (ev !! key) as [[|d|t]|] eqn:E; try discriminate.
    + intros H. destruct (IH _ H) as [[H1|(e1 & Hi1 & He1)] [H2|(e2 & Hi2 & He2)]];
        split; eauto 6.
    + intros H. destruct (IH _ H) as [H1 H2]. simpl in H1, H2. split.
      * destruct H1 as [H1|(e1 & Hi1 & He1)]; [|eauto 6].
        destruct (py_max_cases (fst acc) d) as [[_ Hm]|[_ Hm]]; rewrite Hm in H1.
        -- right. exists ev. rewrite H1. auto.
        -- left. exact H1.
      * destruct H2 as [H2|(e2 & Hi2 & He2)]; [|eauto 6].
        destruct (py_min_cases (snd acc) d) as [[_ Hm]|[_ Hm]]; rewrite Hm in H2.
        -- right. exists ev. rewrite H2. auto.
        -- left. exact H2.
    + intros H. destruct (IH _ H) as [[H1|(e1 & Hi1 & He1)] [H2|(e2 & Hi2 & He2)]];
        split; eauto 6.
Qed.

Lemma fold_extrema_unmeasured (key : string) (events : list event) (acc : number * number) :
  unmeasured key events -> fold_extrema key events acc = Ok acc.
Proof.
  induction events as [|ev rest IH]; intros H; simpl.
  - reflexivity.
  - assert (Hrest : fold_extrema key rest acc = Ok acc).
    { apply IH. intros ev' Hin. apply H. right. exact Hin. }
    destruct (H ev (or_introl eq_refl)) as [-> | ->]; exact Hrest.
Qed.

Lemma numeric_batch_app (key : string) (events1 events2 : list event) :
  numeric_batch key (events1 ++ events2)
  = numeric_batch key events1 && numeric_batch key events2.
Proof. unfold numeric_batch. apply forallb_app. Qed.

Lemma numeric_batch_Permutation (key : string) (events1 events2 : list event) :
  Permutation events1 events2 -> numeric_batch key events1 = numeric_batch key events2.
Proof.
  intros HP. induction HP as [|ev l l' _ IH|x y l|l l' l'' _ IH1 _ IH2]; simpl.
  - reflexivity.
  - rewrite IH. reflexivity.
  - destruct (y !! key) as [[|d|t]|], (x !! key) as [[|d'|t']|]; reflexivity.
  - congruence.
Qed.

Lemma update_stats_result (flight_events checkin_events : list event) (s : stats) :
  (numeric_batch "flight_duration" flight_events = true /\
   numeric_batch "luggage_weight" checkin_events = true /\
   exists s', update_stats flight_events checkin_events s = Ok s')
  \/ ((numeric_batch "flight_duration" flight_events = false \/
       numeric_batch "luggage_weight" checkin_events = false) /\
      update_stats flight_events checkin_events s = Raise TypeError).
Proof.
  unfold update_stats. rewrite update_flight_duration_fold. simpl.
  destruct (fold_extrema_result "flight_duration" flight_events
              (max_flight_duration s, min_flight_duration s))
    as [[Hn [[mxf mnf] ->]]|[Hn ->]]; [|right; auto].
  rewrite update_luggage_weight_fold. simpl.
  destruct (fold_extrema_result "luggage_weight" checkin_events
              (max_luggage_weight s, min_luggage_weight s))
    as [[Hn' [[mxl mnl] ->]]|[Hn' ->]]; [left; eauto|right; auto].
Qed.

(** ** What the fold computes *)

(** A loop over reordered events gives extrema of the same value. *)
Lemma fold_extrema_Permutation (key : string) (events events' : list event)
      (acc acc1 acc2 : number * number) :
  Permutation events events' ->
  fold_extrema key events acc = Ok acc1 ->
  fold_extrema key events' acc = Ok acc2 ->
  same_number (fst acc1) (fst acc2) /\ same_number (snd acc1) (snd acc2).
Proof.
  intros HP H1 H2.
  pose proof (fold_extrema_of_nan _ _ _ _ H1) as [N1 M1].
  pose proof (fold_extrema_of_nan _ _ _ _ H2) as [N2 M2].
  pose proof (fold_extrema_widens _ _ _ _ H1) as [W1 V1].
  pose proof (fold_extrema_widens _ _ _ _ H2) as [W2 V2].
  pose proof (fold_extrema_attained _ _ _ _ H1) as [A1 B1].
  pose proof (fold_extrema_attained _ _ _ _ H2) as [A2 B2].
  assert (HP' : Permutation events' events) by (apply Permutation_sym, HP).
  split.
  - assert (D : fst acc = NaN \/ fst acc <> NaN) by (destruct (fst acc); auto; right; discriminate).
    destruct D as [E|E]; [left; rewrite (N1 E), (N2 E); reflexivity|].
    destruct (W1 E) as [Hn1 Hl1]. destruct (W2 E) as [Hn2 Hl2].
    right. split.
    + destruct A1 as [->|(ev & Hin & Hev)]; [exact Hl2|].
      apply (fold_extrema_bounds _ _ _ _ H2 ev _ (Permutation_in _ HP Hin) Hev Hn1), E.
    + destruct A2 as [->|(ev & Hin & Hev)]; [exact Hl1|].
      apply (fold_extrema_bounds _ _ _ _ H1 ev _ (Permutation_in _ HP' Hin) Hev Hn2), E.
  - assert (D : snd acc = NaN \/ snd acc <> NaN) by (destruct (snd acc); auto; right; discriminate).
    destruct D as [E|E]; [left; rewrite (M1 E), (M2 E); reflexivity|].
    destruct (V1 E) as [Hn1 Hl1]. destruct (V2 E) as [Hn2 Hl2].
    right. split.
    + destruct B2 as [->|(ev & Hin & Hev)]; [exact Hl1|].
      apply (fold_extrema_bounds _ _ _ _ H1 ev _ (Permutation_in _ HP' Hin) Hev Hn2), E.
    + destruct B1 as [->|(ev & Hin & Hev)]; [exact Hl2|].
      apply (fold_extrema_bounds _ _ _ _ H2 ev _ (Permutation_in _ HP Hin) Hev Hn1), E.
Qed.

(** X1: when the stored extrema of a category are numbers, as they are
    from the defaults on, they are numbers after a fold; the maximum is an
    upper bound of the former maximum and of every measurement of the batch
    that is a number, and it is one of them; the minimum is a lower bound
    of the former minimum and of every such measurement, and it is one of
    them.  A measurement that is not-a-number is passed over. *)
Theorem extrema_are_attained_bounds (flight_events checkin_events : list event)
        (s s' : stats) (c : category) :
  update_stats flight_events checkin_events s = Ok s' ->
  maximum c s <> NaN ->
  minimum c s <> NaN ->
  maximum c s' <> NaN /\
  minimum c s' <> NaN /\
  le (maximum c s) (maximum c s') /\
  le (minimum c s') (minimum c s) /\
  (forall (ev : event) (d : number),
     In ev (batch c (flight_events, checkin_events)) ->
     ev !! measurement c = Some (JNum d) ->
     d <> NaN ->
     le (minimum c s') d /\ le d (maximum c s')) /\
  (maximum c s' = maximum c s \/
   exists ev : event, In ev (batch c (flight_events, checkin_events)) /\
                      ev !! measurement c = Some (JNum (maximum c s'))) /\
  (minimum c s' = minimum c s \/
   exists ev : event, In ev (batch c (flight_events, checkin_events)) /\
                      ev !! measurement c = Some (JNum (minimum c s'))).
Proof.
  intros Hu Hmax Hmin. destruct (update_stats_category _ _ _ _ Hu c) as [_ Hfold].
  destruct (fold_extrema_widens _ _ _ _ Hfold) as [W V]. simpl in W, V.
  destruct (W Hmax) as [Hn1 Hl1]. destruct (V Hmin) as [Hn2 Hl2].
  destruct (fold_extrema_attained _ _ _ _ Hfold) as [Hamax Hamin].
  do 4 (split; [assumption|]).
  split; [|split; assumption].
  intros ev d Hin Hd Hnn.
  destruct (fold_extrema_bounds _ _ _ _ Hfold ev d Hin Hd Hnn) as [B1 B2].
  simpl in B1, B2. auto.
Qed.

Lemma extrema_are_attained_bounds_witness :
  Fin 120 <> NaN /\
  Fin 90 <> NaN /\
  le (Fin 0) (Fin 120) /\
  le (Fin 90) PosInf /\
  (forall (ev : event) (d : number),
     In ev [Sample.flight_nan; Sample.flight120; Sample.flight90] ->
     ev !! "flight_duration" = Some (JNum d) ->
     d <> NaN ->
     le (Fin 90) d /\ le d (Fin 120)) /\
  (Fin 120 = Fin 0 \/
   exists ev : event, In ev [Sample.flight_nan; Sample.flight120; Sample.flight90] /\
                      ev !! "flight_duration" = Some (JNum (Fin 120))) /\
  (Fin 90 = PosInf \/
   exists ev : event, In ev [Sample.flight_nan; Sample.flight120; Sample.flight90] /\
                      ev !! "flight_duration" = Some (JNum (Fin 90))).
Proof.
  apply (extrema_are_attained_bounds
           [Sample.flight_nan; Sample.flight120; Sample.flight90] [] DEFAULT_STATS
           (mk_stats 3 0 (Fin 0) PosInf (Fin 120) (Fin 90) epoch_2000) FlightSchedules).
  - vm_compute. reflexivity.
  - discriminate.
  - discriminate.
Defined.

(** X2: from the defaults, the first measurement [d] of a category, when
    it is a number, becomes its minimum; it becomes its maximum only when
    it is greater than 0, the default maximum being 0 and not an infinity.
    When [d] is not-a-number the event is counted and the extrema stay at
    their defaults. *)
Theorem first_measurement_from_defaults (c : category) (ev : event) (d : number) :
  ev !! measurement c = Some (JNum d) ->
  exists s' : stats,
    update_stats (fst (alone c [ev])) (snd (alone c [ev])) DEFAULT_STATS = Ok s' /\
    counter c s' = 1 /\
    (d <> NaN ->
     minimum c s' = d /\ maximum c s' = (if gt d (Fin 0) then d else Fin 0)) /\
    (d = NaN -> minimum c s' = PosInf /\ maximum c s' = Fin 0) /\
    counter (other c) s' = 0 /\
    minimum (other c) s' = PosInf /\
    maximum (other c) s' = Fin 0.
Proof.
  intros Hd.
  assert (Hmin : d <> NaN -> py_min PosInf d = d) by (destruct d; congruence || reflexivity).
  assert (Hnan : d = NaN -> py_min PosInf d = PosInf /\ py_max (Fin 0) d = Fin 0)
    by (intros ->; split; reflexivity).
  destruct c; simpl in Hd; eexists;
    (split; [unfold update_stats; simpl; rewrite Hd; simpl; reflexivity|]);
    simpl; (split; [reflexivity|]);
    (split; [intros Hn; rewrite (Hmin Hn); split; reflexivity|]);
    (split; [exact Hnan|]); repeat split.
Qed.

Lemma first_measurement_from_defaults_witness :
  exists s' : stats,
    update_stats [] [Scenario.checkin_negative] DEFAULT_STATS = Ok s' /\
    num_passenger_checkins s' = 1 /\
    (Fin (-3) <> NaN ->
     min_luggage_weight s' = Fin (-3) /\
     max_luggage_weight s' = (if gt (Fin (-3)) (Fin 0) then Fin (-3) else Fin 0)) /\
    (Fin (-3) = NaN -> min_luggage_weight s' = PosInf /\ max_luggage_weight s' = Fin 0) /\
    num_flight_schedules s' = 0 /\
    min_flight_duration s' = PosInf /\
    max_flight_duration s' = Fin 0.
Proof.
  apply (first_measurement_from_defaults PassengerCheckins Scenario.checkin_negative (Fin (-3))).
  vm_compute. reflexivity.
Defined.

(** X3: events whose measurement is missing or [null] are counted and
    leave the extrema as they are: on two batches without a measurement
    the fold only adds the batch lengths to the counters. *)
Theorem unmeasured_events_are_only_counted (flight_events checkin_events : list event)
        (s : stats) :
  unmeasured "flight_duration" flight_events ->
  unmeasured "luggage_weight" checkin_events ->
  update_stats flight_events checkin_events s
  = Ok (mk_stats (num_flight_schedules s + Z.of_nat (length flight_events))
                 (num_passenger_checkins s + Z.of_nat (length checkin_events))
                 (max_luggage_weight s) (min_luggage_weight s)
                 (max_flight_duration s) (min_flight_duration s)
                 (last_updated s)).
Proof.
  intros Hf Hc. apply update_stats_fields.
  exists (max_flight_duration s), (min_flight_duration s),
         (max_luggage_weight s), (min_luggage_weight s).
  split; [apply fold_extrema_unmeasured, Hf|].
  split; [apply fold_extrema_unmeasured, Hc|]. reflexivity.
Qed.

Lemma unmeasured_events_are_only_counted_witness :
  update_stats [Sample.checkin42] [Scenario.checkin_unweighed; Scenario.checkin_null; Sample.flight90]
               Sample.seen
  = Ok (mk_stats 3 4 (Fin 42) (Fin 42) (Fin 120) (Fin 90) 1600000000).
Proof.
  apply (unmeasured_events_are_only_counted
           [Sample.checkin42]
           [Scenario.checkin_unweighed; Scenario.checkin_null; Sample.flight90] Sample.seen).
  - intros ev [<-|[]]. left. vm_compute. reflexivity.
  - intros ev [<-|[<-|[<-|[]]]]; [left|right|left]; vm_compute; reflexivity.
Defined.

(** X4: folding the batches of two cycles one after the other gives the
    same document, or the same exception, as folding their concatenations
    at once. *)
Theorem fold_of_concatenated_batches
        (flight_events1 flight_events2 checkin_events1 checkin_events2 : list event)
        (s : stats) :
  update_stats (flight_events1 ++ flight_events2) (checkin_events1 ++ checkin_events2) s
  = match update_stats flight_events1 checkin_events1 s with
    | Ok s1 => update_stats flight_events2 checkin_events2 s1
    | Raise e => Raise e
    end.
Proof.
  destruct (update_stats_result flight_events1 checkin_events1 s)
    as [(Hf1 & Hc1 & s1 & H1)|[Hbad H1]]; rewrite H1.
  - apply update_stats_fields in H1.
    destruct H1 as (mxf & mnf & mxl & mnl & Hff & Hfl & ->).
    destruct (update_stats_result flight_events2 checkin_events2
                (mk_stats (num_flight_schedules s + Z.of_nat (length flight_events1))
                          (num_passenger_checkins s + Z.of_nat (length checkin_events1))
                          mxl mnl mxf mnf (last_updated s)))
      as [(Hf2 & Hc2 & s2 & H2)|[Hbad H2]]; rewrite H2.
    + apply update_stats_fields in H2. simpl in H2.
      destruct H2 as (mxf2 & mnf2 & mxl2 & mnl2 & Hff2 & Hfl2 & ->).
      apply update_stats_fields. exists mxf2, mnf2, mxl2, mnl2.
      rewrite !fold_extrema_app, Hff, Hfl. split; [exact Hff2|]. split; [exact Hfl2|].
      rewrite !length_app, !Nat2Z.inj_add. f_equal; lia.
    + destruct (update_stats_result (flight_events1 ++ flight_events2)
                  (checkin_events1 ++ checkin_events2) s)
        as [(Hf & Hc & _)|[_ H]]; [|exact H].
      rewrite numeric_batch_app in Hf, Hc.
      apply andb_prop in Hf, Hc. destruct Hf, Hc, Hbad; congruence.
  - destruct (update_stats_result (flight_events1 ++ flight_events2)
                (checkin_events1 ++ checkin_events2) s)
      as [(Hf & Hc & _)|[_ H]]; [|exact H].
    rewrite numeric_batch_app in Hf, Hc.
    apply andb_prop in Hf, Hc. destruct Hf, Hc, Hbad; congruence.
Qed.

(** X5: the order of the events within a batch does not matter: on
    reordered batches the fold succeeds as well, with the same counters and
    with extrema of the same value. *)
Theorem fold_of_reordered_batches
        (flight_events flight_events' checkin_events checkin_events' : list event)
        (s s1 : stats) :
  Permutation flight_events flight_events' ->
  Permutation checkin_events checkin_events' ->
  update_stats flight_events checkin_events s = Ok s1 ->
  exists s2 : stats,
    update_stats flight_events' checkin_events' s = Ok s2 /\
    num_flight_schedules s2 = num_flight_schedules s1 /\
    num_passenger_checkins s2 = num_passenger_checkins s1 /\
    last_updated s2 = last_updated s1 /\
    forall c : category,
      same_number (maximum c s2) (maximum c s1) /\
      same_number (minimum c s2) (minimum c s1).
Proof.
  intros Pf Pc H1.
  destruct (update_stats_result flight_events checkin_events s)
    as [(Hf & Hc & _)|[_ H]]; [|congruence].
  rewrite (numeric_batch_Permutation _ _ _ Pf) in Hf.
  rewrite (numeric_batch_Permutation _ _ _ Pc) in Hc.
  destruct (update_stats_total flight_events' checkin_events' s Hf Hc) as [s2 H2].
  exists s2. split; [exact H2|].
  pose proof (update_stats_category _ _ _ _ H1 FlightSchedules) as [Hn1 _].
  pose proof (update_stats_category _ _ _ _ H2 FlightSchedules) as [Hn2 _].
  pose proof (update_stats_category _ _ _ _ H1 PassengerCheckins) as [Hm1 _].
  pose proof (update_stats_category _ _ _ _ H2 PassengerCheckins) as [Hm2 _].
  simpl in Hn1, Hn2, Hm1, Hm2.
  rewrite <- (Permutation_length Pf) in Hn2. rewrite <- (Permutation_length Pc) in Hm2.
  split; [lia|]. split; [lia|].
  split; [rewrite (update_stats_last_updated _ _ _ _ H1),
                  (update_stats_last_updated _ _ _ _ H2); reflexivity|].
  intros c.
  assert (HP : Permutation (batch c (flight_events, checkin_events))
                           (batch c (flight_events', checkin_events')))
    by (destruct c; assumption).
  destruct (update_stats_category _ _ _ _ H1 c) as [_ Hf1].
  destruct (update_stats_category _ _ _ _ H2 c) as [_ Hf2].
  destruct (fold_extrema_Permutation _ _ _ _ _ _ HP Hf1 Hf2) as [Smax Smin].
  simpl in Smax, Smin.
  split; [destruct Smax as [->|[Ha Hb]] | destruct Smin as [->|[Ha Hb]]];
    (left; reflexivity) || (right; split; assumption).
Qed.

Lemma fold_of_reordered_batches_witness :
  exists s2 : stats,
    update_stats [Sample.flight90; Sample.flight120] [] DEFAULT_STATS = Ok s2 /\
    num_flight_schedules s2 = 2 /\
    num_passenger_checkins s2 = 0 /\
    last_updated s2 = epoch_2000 /\
    forall c : category,
      same_number (maximum c s2)
                  (maximum c (mk_stats 2 0 (Fin 0) PosInf (Fin 120) (Fin 90) epoch_2000)) /\
      same_number (minimum c s2)
                  (minimum c (mk_stats 2 0 (Fin 0) PosInf (Fin 120) (Fin 90) epoch_2000)).
Proof.
  apply (fold_of_reordered_batches
           [Sample.flight120; Sample.flight90] [Sample.flight90; Sample.flight120] [] []
           DEFAULT_STATS (mk_stats 2 0 (Fin 0) PosInf (Fin 120) (Fin 90) epoch_2000)).
  - apply perm_swap.
  - apply perm_nil.
  - vm_compute. reflexivity.
Defined.

(** ** Cycles that raise *)




(** X7: a text in the place of a measurement, in either batch, makes the
    cycle raise [TypeError] after both fetches have succeeded and been
    logged as received; nothing is written. *)
Theorem text_measurement_aborts_cycle
        (config : app_config) (network : query_url -> reply) (now : datetime)
        (w : world) (s : stats) (flight_events checkin_events : list event) :
  loaded (disk w) = Ok s ->
  network (query config FlightSchedules s now) = Response 200 (Json flight_events) ->
  network (query config PassengerCheckins s now) = Response 200 (Json checkin_events) ->
  numeric_batch "flight_duration" flight_events = false
  \/ numeric_batch "luggage_weight" checkin_events = false ->
  populate_stats config network now w
  = (Raise TypeError,
     mk_world (disk w)
              (log w ++ [(INFO, ProcessingStarted);
                         (INFO, Received FlightSchedules (length flight_events));
                         (INFO, Received PassengerCheckins (length checkin_events))])
              (requests w ++ [query config FlightSchedules s now;
                              query config PassengerCheckins s now])).
Proof.
  intros Hs Hf Hc Hbad. rewrite populate_stats_unfold, Hs. cbv zeta.
  rewrite Hf, Hc. simpl.
  destruct (update_stats_result flight_events checkin_events s)
    as [(Hnf & Hnc & _)|[_ ->]].
  - destruct Hbad; congruence.
  - rewrite <- !app_assoc. reflexivity.
Qed.

Lemma text_measurement_aborts_cycle_witness :
  populate_stats Sample.config Scenario.text_duration Sample.now Sample.stored
  = (Raise TypeError,
     mk_world (Document Sample.seen)
              [(INFO, ProcessingStarted);
               (INFO, Received FlightSchedules 2);
               (INFO, Received PassengerCheckins 1)]
              [query Sample.config FlightSchedules Sample.seen Sample.now;
               query Sample.config PassengerCheckins Sample.seen Sample.now]).
Proof.
  apply (text_measurement_aborts_cycle
           Sample.config Scenario.text_duration Sample.now Sample.stored Sample.seen
           [Sample.flight120; Scenario.flight_text] [Sample.checkin42]).
  - reflexivity.
  - reflexivity.
  - reflexivity.
  - left. vm_compute. reflexivity.
Defined.

(** X8: a failure of the flight fetch that raises, a transport failure
    or a 200 response whose body cannot be decoded, ends the cycle before
    the check-in query is sent: only the flight query has left. *)
Theorem flight_fetch_raising_skips_checkins
        (config : app_config) (network : query_url -> reply) (now : datetime)
        (w : world) (s : stats) :
  loaded (disk w) = Ok s ->
  network (query config FlightSchedules s now) = TransportFailure
  \/ network (query config FlightSchedules s now) = Response 200 NotJson ->
  exists e : exn,
    (e = TransportError \/ e = JSONDecodeError) /\
    populate_stats config network now w
    = (Raise e,
       mk_world (disk w) (log w ++ [(INFO, ProcessingStarted)])
                (requests w ++ [query config FlightSchedules s now])).
Proof.
  intros Hs Hr. rewrite populate_stats_unfold, Hs. cbv zeta.
  destruct Hr as [-> | ->]; simpl; rewrite app_nil_r; eauto.
Qed.

Lemma flight_fetch_raising_skips_checkins_witness :
  exists e : exn,
    (e = TransportError \/ e = JSONDecodeError) /\
    populate_stats Sample.config Sample.flights_garbled Sample.now Sample.stored
    = (Raise e,
       mk_world (Document Sample.seen) [(INFO, ProcessingStarted)]
                [query Sample.config FlightSchedules Sample.seen Sample.now]).
Proof.
  apply (flight_fetch_raising_skips_checkins
           Sample.config Sample.flights_garbled Sample.now Sample.stored Sample.seen).
  - reflexivity.
  - right. reflexivity.
Defined.

(** ** Cycles that run to their end *)

(** X9: [populate_stats] runs to its end only if the stats file is absent
    or holds a document and no fetch raised: for neither category was the
    reply a transport failure or a response of status 200 with a body that
    cannot be decoded, and a batch decoded from a response of status 200
    had no text in the place of a measurement. *)
Theorem completes_only_if_no_fetch_raised
        (config : app_config) (network : query_url -> reply) (now : datetime) (w : world) :
  completes config network now w ->
  exists s : stats,
    loaded (disk w) = Ok s /\
    forall c : category,
      network (query config c s now) <> TransportFailure /\
      network (query config c s now) <> Response 200 NotJson /\
      forall events : list event,
        network (query config c s now) = Response 200 (Json events) ->
        numeric_batch (measurement c) events = true.
Proof.
  intros (w' & s1 & Hrun & _).
  apply populate_stats_completed_inv in Hrun.
  destruct Hrun as (s & s' & fe & ce & Hs & Hf & Hc & Hu & _).
  exists s. split; [exact Hs|].
  destruct (update_stats_result fe ce s) as [(Hnf & Hnc & _)|[_ H]]; [|congruence].
  intros c.
  assert (Hb : exists events, batch_of (network (query config c s now)) = Ok events /\
                              numeric_batch (measurement c) events = true)
    by (destruct c; eauto).
  destruct Hb as (b & Hb & Hnum).
  split; [intros E; rewrite E in Hb; discriminate Hb|].
  split; [intros E; rewrite E in Hb; discriminate Hb|].
  intros events E. rewrite E in Hb. simpl in Hb. congruence.
Qed.

Lemma completes_only_if_no_fetch_raised_witness :
  exists s : stats,
    loaded (disk Sample.fresh) = Ok s /\
    forall c : category,
      Sample.checkins_failing (query Sample.config c s Sample.now) <> TransportFailure /\
      Sample.checkins_failing (query Sample.config c s Sample.now) <> Response 200 NotJson /\
      forall events : list event,
        Sample.checkins_failing (query Sample.config c s Sample.now)
        = Response 200 (Json events) ->
        numeric_batch (measurement c) events = true.
Proof.
  apply (completes_only_if_no_fetch_raised
           Sample.config Sample.checkins_failing Sample.now Sample.fresh).
  eexists. eexists. split; [vm_compute; reflexivity|reflexivity].
Defined.

(** X10: a cycle that runs to its end logs five lines: the start, one line
    for each fetch (the number of events received, or the error status),
    the statistics at DEBUG level, which are exactly the persisted ones,
    and the end. *)
Theorem completed_cycle_log
        (config : app_config) (network : query_url -> reply) (now : datetime) (w w' : world) :
  populate_stats config network now w = (Ok tt, w') ->
  exists (s' : stats) (flight_line checkin_line : level * message),
    disk w' = Document s' /\
    log w' = log w ++ [(INFO, ProcessingStarted); flight_line; checkin_line;
                       (DEBUG, UpdatedStatistics s'); (INFO, ProcessingEnded)] /\
    ((exists n : nat, flight_line = (INFO, Received FlightSchedules n)) \/
     (exists status_code : Z, status_code <> 200 /\
                              flight_line = (ERROR, ErrorFetching FlightSchedules status_code))) /\
    ((exists n : nat, checkin_line = (INFO, Received PassengerCheckins n)) \/
     (exists status_code : Z, status_code <> 200 /\
                              checkin_line
                              = (ERROR, ErrorFetching PassengerCheckins status_code))).
Proof.
  rewrite populate_stats_unfold.
  destruct (loaded (disk w)) as [s|e]; [|discriminate]. cbv zeta.
  assert (Hline : forall (c : category) (r : reply) (events : list event),
             batch_of r = Ok events ->
             exists line : level * message,
               fetch_log c r = [line] /\
               ((exists n : nat, line = (INFO, Received c n)) \/
                (exists status_code : Z, status_code <> 200 /\
                                         line = (ERROR, ErrorFetching c status_code)))).
  { intros c [|status_code content] events; simpl; [discriminate|].
    destruct (Z.eqb_spec status_code 200) as [->|Hne].
    - destruct content; [discriminate|]. intros _. eexists. split; [reflexivity|]. eauto.
    - intros _. eexists. split; [reflexivity|]. eauto. }
  destruct (batch_of (network (query config FlightSchedules s now))) as [fe|e] eqn:Hf;
    [|discriminate].
  destruct (batch_of (network (query config PassengerCheckins s now))) as [ce|e] eqn:Hc;
    [|discriminate].
  destruct (update_stats fe ce s) as [s'|e]; [|discriminate].
  intros [= <-].
  destruct (Hline FlightSchedules _ _ Hf) as (lf & Elf & Hlf).
  destruct (Hline PassengerCheckins _ _ Hc) as (lc & Elc & Hlc).
  exists (set_last_updated (strftime now) s'), lf, lc. simpl.
  rewrite Elf, Elc, <- !app_assoc. simpl. auto.
Qed.

Lemma completed_cycle_log_witness :
  exists (s' : stats) (flight_line checkin_line : level * message),
    disk (snd (populate_stats Sample.config Sample.checkins_failing Sample.now Sample.fresh))
    = Document s' /\
    log (snd (populate_stats Sample.config Sample.checkins_failing Sample.now Sample.fresh))
    = [] ++ [(INFO, ProcessingStarted); flight_line; checkin_line;
             (DEBUG, UpdatedStatistics s'); (INFO, ProcessingEnded)] /\
    ((exists n : nat, flight_line = (INFO, Received FlightSchedules n)) \/
     (exists status_code : Z, status_code <> 200 /\
                              flight_line = (ERROR, ErrorFetching FlightSchedules status_code))) /\
    ((exists n : nat, checkin_line = (INFO, Received PassengerCheckins n)) \/
     (exists status_code : Z, status_code <> 200 /\
                              checkin_line
                              = (ERROR, ErrorFetching PassengerCheckins status_code))).
Proof.
  apply (completed_cycle_log Sample.config Sample.checkins_failing Sample.now Sample.fresh).
  vm_compute. reflexivity.
Defined.

(** The queries of a cycle: the flight query, then the check-in query
    unless the flight fetch raises. *)
Lemma populate_stats_requests
      (config : app_config) (network : query_url -> reply) (now : datetime)
      (w : world) (s : stats) :
  loaded (disk w) = Ok s ->
  exists rest : list query_url,
    requests (snd (populate_stats config network now w))
    = requests w ++ query config FlightSchedules s now :: rest /\
    (rest = [] \/ rest = [query config PassengerCheckins s now]).
Proof.
  intros Hs. rewrite populate_stats_unfold, Hs. cbv zeta.
  destruct (batch_of (network (query config FlightSchedules s now))) as [fe|e].
  - exists [query config PassengerCheckins s now]. split; [|right; reflexivity].
    destruct (batch_of (network (query config PassengerCheckins s now))) as [ce|e];
      [destruct (update_stats fe ce s)|]; simpl; rewrite <- app_assoc; reflexivity.
  - exists []. split; [reflexivity|left; reflexivity].
Qed.

(** X11: the windows of successive cycles adjoin: after a cycle that ran
    to its end at the time [t1], the next job queries the flights from
    [t1] to its own time, and then, unless the flight fetch raises, the
    check-ins over the same window. *)
Theorem windows_are_contiguous (config : app_config) (w w1 : world) (t1 t2 : tick) :
  populate_stats config (net t1) (clock t1) w = (Ok tt, w1) ->
  exists rest : list query_url,
    requests (run_job config w1 t2)
    = requests w1
        ++ mk_query_url (flight_schedules_url config)
                        (strftime (clock t1)) (strftime (clock t2)) :: rest /\
    (rest = [] \/
     rest = [mk_query_url (passenger_checkins_url config)
                          (strftime (clock t1)) (strftime (clock t2))]).
Proof.
  intros Hrun. apply populate_stats_completed_inv in Hrun.
  destruct Hrun as (s & s' & fe & ce & _ & _ & _ & _ & Hd & _).
  assert (Hs : loaded (disk w1) = Ok (set_last_updated (strftime (clock t1)) s'))
    by (rewrite Hd; reflexivity).
  exact (populate_stats_requests config (net t2) (clock t2) w1 _ Hs).
Qed.

Lemma windows_are_contiguous_witness :
  exists rest : list query_url,
    requests (run_job Sample.config
                (snd (populate_stats Sample.config Sample.both_failing Sample.now Sample.stored))
                (mk_tick Sample.later Sample.checkins_failing))
    = requests (snd (populate_stats Sample.config Sample.both_failing Sample.now Sample.stored))
        ++ mk_query_url (flight_schedules_url Sample.config)
                        (strftime Sample.now) (strftime Sample.later) :: rest /\
    (rest = [] \/
     rest = [mk_query_url (passenger_checkins_url Sample.config)
                          (strftime Sample.now) (strftime Sample.later)]).
Proof.
  apply (windows_are_contiguous
           Sample.config Sample.stored _
           (mk_tick Sample.now Sample.both_failing)
           (mk_tick Sample.later Sample.checkins_failing)).
  vm_compute. reflexivity.
Defined.

(** ** GET /stats and the cycles *)

(** X12: after a cycle that ran to its end, GET /stats answers 200 with the
    document the cycle persisted, whose [last_updated] is the time of the
    cycle; it logs three lines and leaves the file and the requests as
    they are. *)
Theorem completed_cycle_is_served
        (config : app_config) (network : query_url -> reply) (now : datetime) (w w1 : world) :
  populate_stats config network now w = (Ok tt, w1) ->
  exists s1 : stats,
    disk w1 = Document s1 /\
    last_updated s1 = strftime now /\
    get_stats w1
    = (Ok (Answer200 s1),
       mk_world (Document s1)
                (log w1 ++ [(INFO, GetRequestReceived); (DEBUG, StatisticsData s1);
                            (INFO, GetRequestCompleted)])
                (requests w1)).
Proof.
  intros Hrun. apply populate_stats_completed_inv in Hrun.
  destruct Hrun as (s & s' & fe & ce & _ & _ & _ & _ & Hd & _).
  exists (set_last_updated (strftime now) s'). split; [exact Hd|]. split; [reflexivity|].
  unfold get_stats, bind, logger, read_disk, ret. simpl. rewrite Hd.
  simpl. rewrite <- !app_assoc. reflexivity.
Qed.

Lemma completed_cycle_is_served_witness :
  exists s1 : stats,
    disk (snd (populate_stats Sample.config Sample.checkins_failing Sample.now Sample.fresh))
    = Document s1 /\
    last_updated s1 = strftime Sample.now /\
    get_stats (snd (populate_stats Sample.config Sample.checkins_failing
                                   Sample.now Sample.fresh))
    = (Ok (Answer200 s1),
       mk_world (Document s1)
                (log (snd (populate_stats Sample.config Sample.checkins_failing
                                          Sample.now Sample.fresh))
                   ++ [(INFO, GetRequestReceived); (DEBUG, StatisticsData s1);
                       (INFO, GetRequestCompleted)])
                (requests (snd (populate_stats Sample.config Sample.checkins_failing
                                               Sample.now Sample.fresh)))).
Proof.
  apply (completed_cycle_is_served
           Sample.config Sample.checkins_failing Sample.now Sample.fresh).
  vm_compute. reflexivity.
Defined.



(** ** The file over many jobs *)

Lemma run_job_truncated (config : app_config) (w : world) (t : tick) :
  disk w = Truncated ->
  run_job config w t
  = mk_world Truncated (log w ++ [(INFO, ProcessingStarted)]) (requests w).
Proof.
  intros H. unfold run_job. rewrite populate_stats_unfold, H. reflexivity.
Qed.



(** X15: a stats file that exists and holds no document is never repaired:
    every job raises while loading it, before any query is sent, so that
    after any sequence of jobs the file is still emptied, no event has
    been folded and GET /stats raises. *)
Theorem emptied_file_is_never_repaired (config : app_config) (ticks : list tick) (w : world) :
  disk w = Truncated ->
  disk (scheduler config ticks w) = Truncated /\
  requests (scheduler config ticks w) = requests w /\
  (forall c : category, folded_count config c ticks w = 0) /\
  fst (get_stats (scheduler config ticks w)) = Raise JSONDecodeError.
Proof.
  intros H.
  assert (Hinv : disk (scheduler config ticks w) = Truncated /\
                 requests (scheduler config ticks w) = requests w /\
                 forall c : category, folded_count config c ticks w = 0).
  { revert w H. induction ticks as [|t rest IH]; intros w H; simpl; [auto|].
    destruct (IH (run_job config w t)) as (H1 & H2 & H3).
    { rewrite (run_job_truncated config w t H). reflexivity. }
    unfold scheduler in *. split; [exact H1|].
    split; [rewrite H2, (run_job_truncated config w t H); reflexivity|].
    intros c. rewrite H3. unfold folded. rewrite H. destruct c; reflexivity. }
  destruct Hinv as (H1 & H2 & H3).
  split; [exact H1|]. split; [exact H2|]. split; [exact H3|].
  unfold get_stats, bind, logger, read_disk. simpl. rewrite H1. reflexivity.
Qed.

Lemma emptied_file_is_never_repaired_witness :
  disk (scheduler Sample.config Sample.two_ticks Scenario.emptied) = Truncated /\
  requests (scheduler Sample.config Sample.two_ticks Scenario.emptied) = [] /\
  (forall c : category, folded_count Sample.config c Sample.two_ticks Scenario.emptied = 0) /\
  fst (get_stats (scheduler Sample.config Sample.two_ticks Scenario.emptied))
  = Raise JSONDecodeError.
Proof.
  apply (emptied_file_is_never_repaired Sample.config Sample.two_ticks Scenario.emptied).
  reflexivity.
Defined.

(** ** The two categories *)

(** X16: the two categories do not interfere in the fold: the counter
    and the extrema of a category after the fold depend on the batch of
    that category only, whatever the other batch holds, fields named after
    the other measurement included. *)
Theorem categories_do_not_interfere
        (flight_events checkin_events flight_events' checkin_events' : list event)
        (s s1 s2 : stats) (c : category) :
  batch c (flight_events, checkin_events) = batch c (flight_events', checkin_events') ->
  update_stats flight_events checkin_events s = Ok s1 ->
  update_stats flight_events' checkin_events' s = Ok s2 ->
  counter c s1 = counter c s2 /\
  maximum c s1 = maximum c s2 /\
  minimum c s1 = minimum c s2.
Proof.
  intros Hb H1 H2.
  destruct (update_stats_category _ _ _ _ H1 c) as [Hc1 Hf1].
  destruct (update_stats_category _ _ _ _ H2 c) as [Hc2 Hf2].
  rewrite Hb in Hc1, Hf1. rewrite Hf1 in Hf2. injection Hf2 as -> ->.
  split; [lia|]. split; reflexivity.
Qed.

Lemma categories_do_not_interfere_witness :
  counter PassengerCheckins (mk_stats 2 1 (Fin 42) (Fin 42) (Fin 120) (Fin 90) epoch_2000)
  = counter PassengerCheckins (mk_stats 1 1 (Fin 42) (Fin 42) (Fin 0) PosInf epoch_2000) /\
  maximum PassengerCheckins (mk_stats 2 1 (Fin 42) (Fin 42) (Fin 120) (Fin 90) epoch_2000)
  = maximum PassengerCheckins (mk_stats 1 1 (Fin 42) (Fin 42) (Fin 0) PosInf epoch_2000) /\
  minimum PassengerCheckins (mk_stats 2 1 (Fin 42) (Fin 42) (Fin 120) (Fin 90) epoch_2000)
  = minimum PassengerCheckins (mk_stats 1 1 (Fin 42) (Fin 42) (Fin 0) PosInf epoch_2000).
Proof.
  apply (categories_do_not_interfere
           [Sample.flight120; Sample.flight90] [Sample.checkin42]
           [Scenario.checkin_negative] [Sample.checkin42]
           DEFAULT_STATS).
  - reflexivity.
  - vm_compute. reflexivity.
  - vm_compute. reflexivity.
Defined.
